(** * seal/task/attribute_recognition.py

    A shallow embedding of [InstanceAttributeRecognitionTask]: the methods
    [prepare], [train], [eval] and [run] as state-and-exception passing
    functions, and the properties of the orchestration that follow from them.

    The task is glue code.  Everything it drives (the model, the pipelines,
    the datasets, the loaders, the evaluation object, the train step, the
    optimizer and its scheduler) lives outside the file; those collaborators
    are the fields of [Env] and act on a state [H] of their own.  What the
    file itself owns is modelled concretely: the control flow, the local
    variables, the settings look-ups, the weight file on disk and what is
    printed.  Every method also yields the log of what it did, in order: the
    lines it printed and the calls it made. *)

From Stdlib Require Import ZArith String List Floats.SpecFloat Lia.
From stdpp Require Import base option strings gmap list.

#[local] Set Warnings "-register-all".
#[local] Open Scope string_scope.
#[local] Open Scope list_scope.

(** ** Python values *)

(** A reference to an object that a collaborator owns (a model, a dataset, a
    loader, ...).  The task only passes such references around. *)
Definition obj := positive.

(** The values that settings mappings and keyword arguments hold.  A Python
    [float] is an IEEE 754 binary64 value, NaN included. *)
Inductive pyval :=
| VNone
| VBool (b : bool)
| VInt (z : Z)
| VFloat (f : spec_float)
| VStr (s : string)
| VObj (o : obj)
| VDict (d : gmap string pyval).

Abbreviation dict := (gmap string pyval).

(** The serialized parameter state of a model: parameter name to tensor, the
    tensor contents abstracted to an integer. *)
Abbreviation state_dict := (gmap string Z).

Inductive exn :=
| ValueError (msg : string)
| KeyError (key : string)
| AttributeError (attr : string)
| TypeError (what : string)
| UnboundLocalError (var : string)
| FileNotFoundError (path : string)
| UnpicklingError (path : string)
| Raised (tag : string).        (* whatever a collaborator raises *)

Inductive result (A : Type) :=
| Ok (a : A)
| Raise (e : exn).
Arguments Ok {A} a.
Arguments Raise {A} e.

(** ** Floats as Python compares them *)

(** [a > b] on floats: false as soon as one side is NaN. *)
Definition float_gt (a b : spec_float) : bool := SFltb b a.

Definition is_nan (a : spec_float) : bool :=
  match a with S754_nan => true | _ => false end.

(** The literal [0.] *)
Definition float_zero : spec_float := S754_zero false.

(** ** os.path *)

Definition endswith (s suffix : string) : bool :=
  String.prefix (String.rev suffix) (String.rev s).

(** [posixpath.join(a, b)] on two [str] components. *)
Definition join (a b : string) : string :=
  if String.prefix "/" b then b
  else if (String.eqb a "" || endswith a "/")%bool then a +:+ b
  else a +:+ "/" +:+ b.

(** ** Settings and the task object *)

(** A settings record: [.name] and [.get_settings()]. *)
Record settings := {
  name : string;
  get_settings : dict
}.

(** The attributes [BaseTask] puts on [self] before [prepare] runs.  The base
    class is not part of the file; its attributes are taken as given. *)
Record task := {
  mode : string;
  device : string;
  project : string;
  model_setting : settings;
  pipeline_setting : settings;
  dataset_setting : settings;
  eval_settings : settings;
  train_settings : settings;
  task_settings : settings
}.

(** The class attribute [project]. *)
Definition default_project : string := "InstanceAttributeRecognitionProject".

(** The attributes [prepare] sets on [self].  Those that only the train
    branch assigns are absent ([None]) after a test-mode [prepare]. *)
Record prepared := {
  model : obj;
  evaluation : obj;
  d_weight : pyval;
  train_util : obj;
  train_transforms : option obj;
  evalu_transforms : obj;
  trainset : option obj;
  valset : option obj;
  testset : obj;
  trainloader : option obj;
  valloader : option obj;
  testloader : obj
}.

(** ** The world *)

(** A file at a weight path: readable weights, or bytes [torch.load] cannot
    read (what an interrupted write leaves behind). *)
Inductive file :=
| Weights (sd : state_dict)
| Garbage.

(** A printed line.  Values that Python formats itself (a list of keys, a
    float inside a dict) are kept as values. *)
Inductive line :=
| Str (s : string)
| MissingKeys (ks : list string)
| UnexpectedKeys (ks : list string)
| ResDict (key : string) (v : spec_float).

(** How the evaluation object is called: [evaluation(a, b)] or
    [evaluation(model=m, dataloader=d)]. *)
Inductive callargs :=
| Positional (a b : obj)
| Keywords (model_kw dataloader_kw : obj).

(** Modelled from the spec: the signature of the evaluation object, which is
    built by [seal.evaluation] (not in the file).  The contract is
    "callable with (model, dataloader)": the first positional argument is
    the model, the second the dataloader. *)
Definition bind_evaluation (args : callargs) : obj * obj :=
  match args with
  | Positional a b => (a, b)
  | Keywords m d => (m, d)
  end.

(** What the task does that is visible from outside: the lines it prints, and
    its calls to the collaborators and to torch.  Nothing in the code reads
    the log of these; the properties below are stated on it. *)
Inductive call :=
| C_print (l : line)
| C_build_model (nm : string) (kw : dict) (dev : string)
| C_build_evaluation (nm : string) (kw : dict)
| C_build_train_util (nm : string)
| C_build_pipeline (nm md : string) (kw : dict)
| C_build_dataset (nm md : string) (transform : obj) (kw : dict)
| C_collate_fn (dataset : obj) (r : result pyval)
| C_DataLoader (kw : dict) (r : result obj)
| C_get_optimizer (m : obj)
| C_ReduceLROnPlateau (optimizer : obj)
| C_train_util (f m loader optimizer : obj) (epoch : Z) (epochs : pyval)
               (dev : string) (amp : pyval)
| C_evaluation (ev : obj) (args : callargs)
| C_get_mAP (ev : obj) (r : result spec_float)
| C_scheduler_step (scheduler : obj) (metric : spec_float)
| C_state_dict (m : obj) (r : result state_dict)
| C_torch_save (sd : state_dict) (path : string) (saved : bool)
| C_torch_load (path : string) (map_location : string)
| C_load_state_dict (m : obj) (sd : state_dict) (strict : bool).

Section Task.

(** The state of the collaborators' objects: model parameters, optimizer and
    scheduler state, the accumulators of the evaluation object. *)
Context {H : Type}.

Definition ext (A : Type) : Type := H → result A * H.

(** The collaborators.  Each may raise and may change [H]; none touches the
    weight files or the task's standard output. *)
Record Env := {
  (* build_model(name) called on the settings, then .to(device) *)
  build_model : string → dict → string → ext obj;
  (* build_evaluation(name) called on the settings *)
  build_evaluation : string → dict → ext obj;
  (* build_train_util(name) *)
  build_train_util : string → ext obj;
  (* build_pipeline(name) called with mode=... and the settings *)
  build_pipeline : string → string → dict → ext obj;
  (* build_dataset(name) called with mode=..., transform=... and the settings *)
  build_dataset : string → string → obj → dict → ext obj;
  (* dataset.collate_fn, an attribute read *)
  collate_fn : obj → ext pyval;
  (* DataLoader called on keyword arguments *)
  DataLoader : dict → ext obj;
  (* model.get_optimizer() *)
  get_optimizer : obj → ext obj;
  (* lr_scheduler.ReduceLROnPlateau(optimizer, 'max', patience=0, factor=0.1, threshold=0) *)
  ReduceLROnPlateau : obj → ext obj;
  (* scheduler.step(metric) *)
  scheduler_step : obj → spec_float → ext unit;
  (* train_util(model, loader, optimizer, epoch, epochs, device, amp=...) *)
  call_train_util : obj → obj → obj → obj → Z → pyval → string → pyval → ext unit;
  (* evaluation(...), by the parameter each argument is bound to *)
  call_evaluation : obj → obj * obj → ext unit;
  (* evaluation.get_mAP() *)
  get_mAP : obj → ext spec_float;
  (* model.state_dict() *)
  model_state_dict : obj → ext state_dict;
  (* model.load_state_dict(state_dict, strict=...) *)
  load_state_dict : obj → state_dict → bool → ext (list string * list string);
  (* whether torch.save(sd, path) fails, and if so whether it leaves an
     unreadable file behind *)
  save_fault : state_dict → string → H → option (exn * bool)
}.

Record world := {
  w_ext : H;
  w_files : gmap string file
}.

(** ** State, exceptions and the log *)

Definition M (A : Type) : Type := world → result A * world * list call.

Definition ret {A} (a : A) : M A := fun w => (Ok a, w, []).

Definition raise {A} (e : exn) : M A := fun w => (Raise e, w, []).

Definition bind {A B} (m : M A) (k : A → M B) : M B :=
  fun w => match m w with
           | (Ok a, w1, t1) => let '(r, w2, t2) := k a w1 in (r, w2, t1 ++ t2)
           | (Raise e, w1, t1) => (Raise e, w1, t1)
           end.

(** [try: body  except: handler] with a bare [except]. *)
Definition try_except {A} (body handler : M A) : M A :=
  fun w => match body w with
           | (Ok a, w1, t1) => (Ok a, w1, t1)
           | (Raise _, w1, t1) =>
               let '(r, w2, t2) := handler w1 in (r, w2, t1 ++ t2)
           end.

End Task.

Arguments Env H : clear implicits.
Arguments world H : clear implicits.
Arguments M H A : clear implicits.

Notation "'let*' x ':=' m 'in' k" := (bind m (fun x => k))
  (at level 10, x pattern, m at level 100, k at level 200).
Notation "m ';;' k" := (bind m (fun _ => k))
  (at level 100, k at level 200, right associativity).

Section Methods.

Context {H : Type} (E : Env H).

(** ** Primitive actions *)

Definition print (l : line) : M H unit := fun w => (Ok tt, w, [C_print l]).

(** A call to a collaborator: it runs on the collaborators' state and is
    logged, together with what it returned. *)
Definition extcall {A} (c : result A → call) (f : ext (H:=H) A) : M H A := fun w =>
  let (r, h) := f (w_ext w) in
  (r, {| w_ext := h; w_files := w_files w |}, [c r]).

(** [d[k]] *)
Definition subscript (d : dict) (k : string) : M H pyval :=
  match d !! k with
  | Some v => ret v
  | None => raise (KeyError k)
  end.

(** Reading an attribute of [self] that only the train branch of [prepare]
    assigns. *)
Definition attr (a : string) (o : option obj) : M H obj :=
  match o with
  | Some x => ret x
  | None => raise (AttributeError a)
  end.

(** [op.join(self.d_weight, weight_name)] *)
Definition op_join (d : pyval) (weight_name : string) : M H string :=
  match d with
  | VStr a => ret (join a weight_name)
  | _ => raise (TypeError "join")
  end.

(** [range(n)] *)
Definition range (n : pyval) : M H (list Z) :=
  match n with
  | VInt z => ret (map Z.of_nat (seq 0 (Z.to_nat z)))
  | VBool b => ret (if b then [0%Z] else [])
  | _ => raise (TypeError "range")
  end.

(** [torch.save(sd, path)]: on success the file holds [sd]; a failed save
    leaves the file as it was or leaves an unreadable one.  The files are
    keyed by the path string as it is given: the task computes one path
    only, so other spellings of it and links to it are not modelled. *)
Definition torch_save (sd : state_dict) (path : string) : M H unit := fun w =>
  match save_fault E sd path (w_ext w) with
  | None =>
      (Ok tt, {| w_ext := w_ext w; w_files := <[path := Weights sd]> (w_files w) |},
       [C_torch_save sd path true])
  | Some (e, partial) =>
      (Raise e,
       {| w_ext := w_ext w;
          w_files := if partial then <[path := Garbage]> (w_files w) else w_files w |},
       [C_torch_save sd path false])
  end.

(** [torch.load(path, map_location=...)] *)
Definition torch_load (path map_location : string) : M H state_dict := fun w =>
  match w_files w !! path with
  | Some (Weights sd) => (Ok sd, w, [C_torch_load path map_location])
  | Some Garbage => (Raise (UnpicklingError path), w, [C_torch_load path map_location])
  | None => (Raise (FileNotFoundError path), w, [C_torch_load path map_location])
  end.

(** [settings.update({"dataset": ds, "batch_size": bs, "collate_fn": c})]
    followed by reading the updated mapping.  The update is in place, on a
    mapping the settings object owns; each site overwrites the same three
    keys just before its one read, so a mapping shared between sites reads
    the same as a fresh one. *)
Definition update (v : pyval) (ds : obj) (batch_size collate : pyval) : M H dict :=
  match v with
  | VDict d =>
      ret (<["dataset" := VObj ds]>
             (<["batch_size" := batch_size]> (<["collate_fn" := collate]> d)))
  | _ => raise (AttributeError "update")
  end.

(** The [try: collate_fn = dataset.collate_fn ... except: collate_fn = None]
    block. *)
Definition get_collate (dataset : obj) : M H pyval :=
  try_except
    (let* c := extcall (C_collate_fn dataset) (collate_fn E dataset) in
     print (Str "Using dataset collate function") ;;
     ret c)
    (print (Str "Using dataloader default collate function") ;;
     ret VNone).

(** ** prepare *)

Definition mode_error : exn :=
  ValueError "The InstanceAttributeRecognitionTask's mode must be train or eval".

Definition check_mode (self : task) : M H unit :=
  if bool_decide (mode self ∈ ["train"; "test"]) then ret tt
  else raise mode_error.

Definition make_pipeline (self : task) (md : string) : M H obj :=
  extcall (fun _ => C_build_pipeline (name (pipeline_setting self)) md
                      (get_settings (pipeline_setting self)))
    (build_pipeline E (name (pipeline_setting self)) md
       (get_settings (pipeline_setting self))).

Definition make_dataset (self : task) (md : string) (transform : obj) : M H obj :=
  extcall (fun _ => C_build_dataset (name (dataset_setting self)) md transform
                      (get_settings (dataset_setting self)))
    (build_dataset E (name (dataset_setting self)) md transform
       (get_settings (dataset_setting self))).

(** [settings = get_settings()[key]; settings.update(...); DataLoader(...)] *)
Definition make_loader (self : task) (key : string) (ds : obj)
    (batch_size collate : pyval) : M H obj :=
  let* loader_settings := subscript (get_settings (dataset_setting self)) key in
  let* kw := update loader_settings ds batch_size collate in
  extcall (C_DataLoader kw) (DataLoader E kw).

(** Everything in [prepare] below the mode check. *)
Definition build (self : task) : M H prepared :=
  let* model :=
    extcall (fun _ => C_build_model (name (model_setting self))
                        (get_settings (model_setting self)) (device self))
      (build_model E (name (model_setting self))
         (get_settings (model_setting self)) (device self)) in
  let* evaluation :=
    extcall (fun _ => C_build_evaluation (name (eval_settings self))
                        (get_settings (eval_settings self)))
      (build_evaluation E (name (eval_settings self))
         (get_settings (eval_settings self))) in
  let* d_weight := subscript (get_settings (task_settings self)) "d_weight" in
  let* train_util :=
    extcall (fun _ => C_build_train_util (name (train_settings self)))
      (build_train_util E (name (train_settings self))) in
  if String.eqb (mode self) "train" then
    let* train_transforms := make_pipeline self "train" in
    let* evalu_transforms := make_pipeline self "evalu" in
    let* trainset := make_dataset self "train" train_transforms in
    let* valset := make_dataset self "val" evalu_transforms in
    let* testset := make_dataset self "test" evalu_transforms in
    let* collate := get_collate trainset in
    let* batch_size := subscript (get_settings (train_settings self)) "batch_size" in
    let* trainloader := make_loader self "trainloader" trainset batch_size collate in
    let* valloader := make_loader self "valloader" valset batch_size collate in
    let* testloader := make_loader self "testloader" testset batch_size collate in
    ret {| model := model; evaluation := evaluation; d_weight := d_weight;
           train_util := train_util;
           train_transforms := Some train_transforms;
           evalu_transforms := evalu_transforms;
           trainset := Some trainset; valset := Some valset; testset := testset;
           trainloader := Some trainloader; valloader := Some valloader;
           testloader := testloader |}
  else
    let* batch_size := subscript (get_settings (eval_settings self)) "batch_size" in
    let* evalu_transforms := make_pipeline self "evalu" in
    let* testset := make_dataset self "test" evalu_transforms in
    let* collate := get_collate testset in
    let* testloader := make_loader self "testloader" testset batch_size collate in
    ret {| model := model; evaluation := evaluation; d_weight := d_weight;
           train_util := train_util;
           train_transforms := None;
           evalu_transforms := evalu_transforms;
           trainset := None; valset := None; testset := testset;
           trainloader := None; valloader := None;
           testloader := testloader |}.

Definition prepare (self : task) : M H prepared :=
  check_mode self ;;
  build self.

(** ** train *)

(** The local variables of [train] that live across iterations.  [mAP] is
    unbound until the first iteration has assigned it. *)
Record locals := {
  highest_mAP : spec_float;
  mAP : option spec_float
}.

(** [for x in l: body] over the local variables [s]. *)
Fixpoint for_each {A S} (l : list A) (body : S → A → M H S) (s : S) : M H S :=
  match l with
  | [] => ret s
  | x :: l' => let* s' := body s x in for_each l' body s'
  end.

(** The body of the [try] in the loop. *)
Definition save_attempt (self : task) (p : prepared) : M H unit :=
  let weight_name := project self +:+ "-model-highest.pth" in
  let* sd := extcall (C_state_dict (model p)) (model_state_dict E (model p)) in
  let* path := op_join (d_weight p) weight_name in
  torch_save sd path.

(** The [try: ... torch.save(...)  except: print(...)] block. *)
Definition save_highest (self : task) (p : prepared) : M H unit :=
  try_except
    (save_attempt self p)
    (print (Str "Save Model Weight Failed!")).

(** The first three statements of the loop body: the train step, the
    validation pass, [mAP = self.evaluation.get_mAP()]. *)
Definition train_and_validate (self : task) (p : prepared) (optimizer : obj)
    (epoch : Z) : M H spec_float :=
  let* loader := attr "trainloader" (trainloader p) in
  let* epochs := subscript (get_settings (train_settings self)) "epochs" in
  let* amp := subscript (get_settings (train_settings self)) "amp" in
  extcall (fun _ => C_train_util (train_util p) (model p) loader optimizer
                      epoch epochs (device self) amp)
    (call_train_util E (train_util p) (model p) loader optimizer
       epoch epochs (device self) amp) ;;
  let* val := attr "valloader" (valloader p) in
  extcall (fun _ => C_evaluation (evaluation p) (Keywords (model p) val))
    (call_evaluation E (evaluation p) (bind_evaluation (Keywords (model p) val))) ;;
  extcall (C_get_mAP (evaluation p)) (get_mAP E (evaluation p)).

(** The rest of the loop body.  [res_dict["validation_mAP"]] is [mAP]. *)
Definition step_and_save (self : task) (p : prepared) (scheduler : obj)
    (vars : locals) (mAP : spec_float) : M H locals :=
  extcall (fun _ => C_scheduler_step scheduler mAP)
    (scheduler_step E scheduler mAP) ;;
  if float_gt mAP (highest_mAP vars) then
    let vars' := {| highest_mAP := mAP; mAP := Some mAP |} in
    save_highest self p ;;
    ret vars'
  else ret {| highest_mAP := highest_mAP vars; mAP := Some mAP |}.

Definition epoch_body (self : task) (p : prepared) (optimizer scheduler : obj)
    (vars : locals) (epoch : Z) : M H locals :=
  let* mAP := train_and_validate self p optimizer epoch in
  step_and_save self p scheduler vars mAP.

(** Reading the local [mAP] after the loop. *)
Definition read_mAP (vars : locals) : M H spec_float :=
  match mAP vars with
  | Some m => ret m
  | None => raise (UnboundLocalError "mAP")
  end.

(** The statements of [train] up to the end of the loop. *)
Definition train_loop (self : task) (p : prepared) : M H locals :=
  let* optimizer := extcall (fun _ => C_get_optimizer (model p))
                      (get_optimizer E (model p)) in
  let* scheduler := extcall (fun _ => C_ReduceLROnPlateau optimizer)
                      (ReduceLROnPlateau E optimizer) in
  let vars := {| highest_mAP := float_zero; mAP := None |} in
  let* epochs := subscript (get_settings (train_settings self)) "epochs" in
  let* epoch_list := range epochs in
  for_each epoch_list (epoch_body self p optimizer scheduler) vars.

(** The statements of [train] after the loop. *)
Definition test_highest (self : task) (p : prepared) (vars : locals) : M H unit :=
  print (Str "Finish Train") ;;
  print (Str "Testing the model of highest validation mAP.") ;;
  let weight_name := project self +:+ "-model-highest.pth" in
  let* path := op_join (d_weight p) weight_name in
  let* state_dict := torch_load path (device self) in
  extcall (fun _ => C_load_state_dict (model p) state_dict true)
    (load_state_dict E (model p) state_dict true) ;;
  extcall (fun _ => C_evaluation (evaluation p) (Keywords (model p) (testloader p)))
    (call_evaluation E (evaluation p)
       (bind_evaluation (Keywords (model p) (testloader p)))) ;;
  let* test_mAP := read_mAP vars in
  print (Str "Finish Test") ;;
  print (ResDict "test_mAP" test_mAP).

Definition train (self : task) (p : prepared) : M H unit :=
  let* vars := train_loop self p in
  test_highest self p vars.

(** ** eval *)

(** The [try: ... except: print(...)] block of [eval]. *)
Definition load_pretrained (self : task) (p : prepared) : M H unit :=
  try_except
    (let weight_name := project self +:+ "-model-highest.pth" in
     print (Str ("Loading pretrained weight: " +:+ weight_name)) ;;
     let* path := op_join (d_weight p) weight_name in
     let* state_dict := torch_load path "cpu" in
     let* keys := extcall (fun _ => C_load_state_dict (model p) state_dict false)
                    (load_state_dict E (model p) state_dict false) in
     print (MissingKeys (fst keys)) ;;
     print (UnexpectedKeys (snd keys)) ;;
     print (Str "Finish ..."))
    (print (Str "Cannot find the weight! Using Initialized Weight")).

Definition eval (self : task) (p : prepared) : M H unit :=
  load_pretrained self p ;;
  print (Str "Testing the model of highest validation mAP.") ;;
  extcall (fun _ => C_evaluation (evaluation p) (Positional (testloader p) (model p)))
    (call_evaluation E (evaluation p)
       (bind_evaluation (Positional (testloader p) (model p)))).

(** ** run *)

Definition run (self : task) (p : prepared) : M H unit :=
  if String.eqb (mode self) "train" then train self p else eval self p.

End Methods.

Arguments locals : clear implicits.

(** ** A scripted environment

    Collaborators simple enough to run: the train step of epoch [k] leaves
    the single parameter ["w"] at [k], and the evaluation object scores the
    weights of epoch [k] on the validation loader with the [k]-th entry of a
    list and every weights on the test loader with a fixed score.  It is the
    environment of the examples; the theorems hold for every [Env]. *)

Record script := {
  val_scores : list spec_float;
  test_score : spec_float;
  dataset_collate : option obj;
  failing_saves : list Z;
  partial_write : bool
}.

Record sim := {
  sim_weights : state_dict;
  sim_score : option spec_float
}.

Definition the_model : obj := 1%positive.
Definition the_evaluation : obj := 2%positive.
Definition the_train_util : obj := 3%positive.
Definition the_optimizer : obj := 4%positive.
Definition the_scheduler : obj := 5%positive.
Definition pipeline_train : obj := 10%positive.
Definition pipeline_evalu : obj := 11%positive.
Definition dataset_train : obj := 20%positive.
Definition dataset_val : obj := 21%positive.
Definition dataset_test : obj := 22%positive.
Definition loader_train : obj := 30%positive.
Definition loader_val : obj := 31%positive.
Definition loader_test : obj := 32%positive.

Definition sim_build_pipeline (nm md : string) (kw : dict) : ext (H:=sim) obj := fun h =>
  if String.eqb md "train" then (Ok pipeline_train, h)
  else if String.eqb md "evalu" then (Ok pipeline_evalu, h)
  else (Raise (Raised "pipeline mode"), h).

Definition sim_build_dataset (nm md : string) (transform : obj) (kw : dict)
    : ext (H:=sim) obj := fun h =>
  if String.eqb md "train" then (Ok dataset_train, h)
  else if String.eqb md "val" then (Ok dataset_val, h)
  else if String.eqb md "test" then (Ok dataset_test, h)
  else (Raise (Raised "dataset mode"), h).

Definition sim_collate_fn (sc : script) (ds : obj) : ext (H:=sim) pyval := fun h =>
  match dataset_collate sc with
  | Some c => (Ok (VObj c), h)
  | None => (Raise (AttributeError "collate_fn"), h)
  end.

Definition sim_DataLoader (kw : dict) : ext (H:=sim) obj := fun h =>
  match kw !! "dataset" with
  | Some (VObj ds) => (Ok (ds + 10)%positive, h)
  | _ => (Raise (TypeError "DataLoader"), h)
  end.

Definition sim_train_util (f m loader optimizer : obj) (epoch : Z) (epochs : pyval)
    (dev : string) (amp : pyval) : ext (H:=sim) unit := fun h =>
  (Ok tt, {| sim_weights := {["w" := epoch]}; sim_score := sim_score h |}).

(** The evaluation object follows its contract: it scores a model on a
    loader, and raises when its first argument is not the model. *)
Definition sim_evaluation (sc : script) (ev : obj) (args : obj * obj)
    : ext (H:=sim) unit := fun h =>
  if negb (Pos.eqb (fst args) the_model) then (Raise (Raised "not a model"), h)
  else if Pos.eqb (snd args) loader_test then
    (Ok tt, {| sim_weights := sim_weights h; sim_score := Some (test_score sc) |})
  else
    match sim_weights h !! "w" with
    | Some k =>
        (Ok tt, {| sim_weights := sim_weights h;
                   sim_score := Some (nth (Z.to_nat k) (val_scores sc) S754_nan) |})
    | None => (Raise (Raised "no weights"), h)
    end.

Definition sim_get_mAP (ev : obj) : ext (H:=sim) spec_float := fun h =>
  match sim_score h with
  | Some m => (Ok m, h)
  | None => (Raise (Raised "no score"), h)
  end.

(** Parameters present on both sides are copied; a strict load then raises
    if a key is missing or unexpected. *)
Definition sim_load_state_dict (m : obj) (sd : state_dict) (strict : bool)
    : ext (H:=sim) (list string * list string) := fun h =>
  let missing := filter (fun k => bool_decide (sd !! k = None))
                   (map fst (map_to_list (sim_weights h))) in
  let unexpected := filter (fun k => bool_decide (sim_weights h !! k = None))
                      (map fst (map_to_list sd)) in
  let h' := {| sim_weights := map_imap (fun k v => Some (default v (sd !! k)))
                                (sim_weights h);
               sim_score := sim_score h |} in
  if (strict && negb (bool_decide (missing = []) && bool_decide (unexpected = [])))%bool
  then (Raise (Raised "RuntimeError"), h')
  else (Ok (missing, unexpected), h').

Definition sim_save_fault (sc : script) (sd : state_dict) (path : string) (h : sim)
    : option (exn * bool) :=
  match sd !! "w" with
  | Some k => if bool_decide (k ∈ failing_saves sc)
              then Some (Raised "OSError", partial_write sc) else None
  | None => None
  end.

Definition sim_env (sc : script) : Env sim := {|
  build_model := fun nm kw dev h =>
    (Ok the_model, {| sim_weights := {["w" := (-1)%Z]}; sim_score := sim_score h |});
  build_evaluation := fun nm kw h => (Ok the_evaluation, h);
  build_train_util := fun nm h => (Ok the_train_util, h);
  build_pipeline := sim_build_pipeline;
  build_dataset := sim_build_dataset;
  collate_fn := sim_collate_fn sc;
  DataLoader := sim_DataLoader;
  get_optimizer := fun m h => (Ok the_optimizer, h);
  ReduceLROnPlateau := fun o h => (Ok the_scheduler, h);
  scheduler_step := fun s m h => (Ok tt, h);
  call_train_util := sim_train_util;
  call_evaluation := sim_evaluation sc;
  get_mAP := sim_get_mAP;
  model_state_dict := fun m h => (Ok (sim_weights h), h);
  load_state_dict := sim_load_state_dict;
  save_fault := sim_save_fault sc
|}.

(** Settings of a small project: [epochs] epochs, weights under ["weights"]. *)
Definition sim_settings (nm : string) (d : dict) : settings :=
  {| name := nm; get_settings := d |}.

Definition sim_task (md : string) (epochs : Z) : task := {|
  mode := md;
  device := "cpu";
  project := default_project;
  model_setting := sim_settings "resnet" ∅;
  pipeline_setting := sim_settings "basic" ∅;
  dataset_setting := sim_settings "attributes"
    (<["trainloader" := VDict {["shuffle" := VBool true]}]>
       (<["valloader" := VDict {["shuffle" := VBool false]}]>
          (<["testloader" := VDict {["shuffle" := VBool false]}]> ∅)));
  eval_settings := sim_settings "mAP" {["batch_size" := VInt 16]};
  train_settings := sim_settings "epoch"
    (<["epochs" := VInt epochs]>
       (<["batch_size" := VInt 8]> {["amp" := VBool false]}));
  task_settings := sim_settings "task" {["d_weight" := VStr "weights"]}
|}.

Definition sim_world (files : gmap string file) : world sim := {|
  w_ext := {| sim_weights := ∅; sim_score := None |};
  w_files := files
|}.

Definition sim_path : string :=
  "weights/InstanceAttributeRecognitionProject-model-highest.pth".

(** 0.5, 0.7 and 0.6 as binary64 values. *)
Definition f0_5 : spec_float := S754_finite false 4503599627370496 (-53).
Definition f0_7 : spec_float := S754_finite false 6305039478318694 (-53).
Definition f0_6 : spec_float := S754_finite false 5404319552844595 (-53).

Definition sim_script (scores : list spec_float) : script := {|
  val_scores := scores;
  test_score := f0_5;
  dataset_collate := None;
  failing_saves := [];
  partial_write := false
|}.

Definition sim_run (sc : script) (self : task) (files : gmap string file)
    : result unit * world sim * list call :=
  (let* p := prepare (sim_env sc) self in run (sim_env sc) self p) (sim_world files).


(** ** Reading the log *)

Definition printed (t : list call) : list line :=
  omap (fun c => match c with C_print l => Some l | _ => None end) t.

Definition pipelines_built (t : list call) : list string :=
  omap (fun c => match c with C_build_pipeline _ md _ => Some md | _ => None end) t.

Definition datasets_built (t : list call) : list (string * obj) :=
  omap (fun c => match c with
                 | C_build_dataset _ md transform _ => Some (md, transform)
                 | _ => None
                 end) t.

Definition loaders_built (t : list call) : list (dict * result obj) :=
  omap (fun c => match c with C_DataLoader kw r => Some (kw, r) | _ => None end) t.

Definition collate_lookups (t : list call) : list (obj * result pyval) :=
  omap (fun c => match c with C_collate_fn ds r => Some (ds, r) | _ => None end) t.

Definition evaluation_calls (t : list call) : list callargs :=
  omap (fun c => match c with C_evaluation _ args => Some args | _ => None end) t.

(** The scores read back with [get_mAP()]. *)
Definition mAPs_read (t : list call) : list spec_float :=
  omap (fun c => match c with C_get_mAP _ (Ok m) => Some m | _ => None end) t.

Definition get_mAP_calls (t : list call) : list (result spec_float) :=
  omap (fun c => match c with C_get_mAP _ r => Some r | _ => None end) t.

(** The weight files written, successfully. *)
Definition saved (t : list call) : list (state_dict * string) :=
  omap (fun c => match c with C_torch_save sd path true => Some (sd, path) | _ => None end) t.

(** The paths of the weight files the task writes or reads. *)
Definition weight_paths (t : list call) : list string :=
  omap (fun c => match c with
                 | C_torch_save _ path _ => Some path
                 | C_torch_load path _ => Some path
                 | _ => None
                 end) t.


(** The test results printed: the entries of the [res_dict]s. *)
Definition results_printed (t : list call) : list (string * spec_float) :=
  omap (fun c => match c with C_print (ResDict k v) => Some (k, v) | _ => None end) t.

(** Whether the [try] block of the loop was entered: its first call asks the
    model for its state. *)
Definition save_attempted (t : list call) : bool :=
  existsb (fun c => match c with C_state_dict _ _ => true | _ => false end) t.

(** Whether [torch.load] can read what is at a path. *)
Definition readable (f : option file) : bool :=
  match f with
  | Some (Weights _) => true
  | _ => false
  end.

(** The path of the weight file, for a weight directory [a] that is a [str]:
    what the three sites compute. *)
Definition weight_path (self : task) (a : string) : string :=
  join a (project self +:+ "-model-highest.pth").

(** The path as the specification writes it:
    {d_weight}/{project}-model-highest.pth *)
Definition spec_path (d_weight project : string) : string :=
  d_weight +:+ "/" +:+ project +:+ "-model-highest.pth".

(** A call that touches a weight file touches the one at [path]. *)
Definition on_path (path : string) (c : call) : Prop :=
  match c with
  | C_torch_save _ q _ => q = path
  | C_torch_load q _ => q = path
  | _ => True
  end.

(** A call that prints no test result. *)
Definition no_result (c : call) : Prop :=
  match c with
  | C_print (ResDict _ _) => False
  | _ => True
  end.

(** [h] is what [highest_mAP] holds after the validation scores [ms]: a
    number, not below 0, that is 0 or one of the scores and that no score
    exceeds. *)
Definition best_of (ms : list spec_float) (h : spec_float) : Prop :=
  is_nan h = false ∧
  float_gt float_zero h = false ∧
  (h = float_zero ∨ h ∈ ms) ∧
  ∀ m, m ∈ ms → float_gt m h = false.

(** ** The loop, epoch by epoch *)

Section Epochs.

Context {H : Type} (E : Env H).
Context (self : task) (p : prepared) (optimizer scheduler : obj).

(** A property of every entry of the log a computation yields, whatever the
    world it starts from and however it ends. *)
Definition always {A} (P : call → Prop) (m : M H A) : Prop :=
  ∀ w, Forall P (m w).2.

(** A run of the loop over [epochs] in which no iteration raises.  It starts
    with the locals [vars] in the world [w] and ends with [vars'] in [w'];
    for each epoch it gives the validation mAP (what the validation pass
    returned through [get_mAP]) and the log of the iteration. *)
Inductive epochs_run :
    list Z → locals → world H → list (spec_float * list call) →
    locals → world H → Prop :=
| epochs_done vars w :
    epochs_run [] vars w [] vars w
| epochs_step epoch l vars w m w1 t1 vars1 w2 t2 obs vars' w' :
    train_and_validate E self p optimizer epoch w = (Ok m, w1, t1) →
    step_and_save E self p scheduler vars m w1 = (Ok vars1, w2, t2) →
    epochs_run l vars1 w2 obs vars' w' →
    epochs_run (epoch :: l) vars w ((m, t1 ++ t2) :: obs) vars' w'.



End Epochs.

(** The locals at the start of [train]. *)
Definition initial_locals : locals :=
  {| highest_mAP := float_zero; mAP := None |}.

(** What [prepare] yields in the scripted environment, mode "train", for a
    weight directory [d]. *)
Definition sim_prepared (d : pyval) : prepared := {|
  model := the_model;
  evaluation := the_evaluation;
  d_weight := d;
  train_util := the_train_util;
  train_transforms := Some pipeline_train;
  evalu_transforms := pipeline_evalu;
  trainset := Some dataset_train;
  valset := Some dataset_val;
  testset := dataset_test;
  trainloader := Some loader_train;
  valloader := Some loader_val;
  testloader := loader_test
|}.

(** The scripted model after it was built, with [files] on disk. *)
Definition sim_built (files : gmap string file) : world sim := {|
  w_ext := {| sim_weights := {["w" := (-1)%Z]}; sim_score := None |};
  w_files := files
|}.

(** ** Further readings of the log, and what a method does to the files *)

(** The train steps made: the epoch index and the total passed to each. *)
Definition train_steps (t : list call) : list (Z * pyval) :=
  omap (fun c => match c with
                 | C_train_util _ _ _ _ epoch epochs _ _ => Some (epoch, epochs)
                 | _ => None
                 end) t.




(** The [torch.save] calls, failed ones included. *)
Definition save_calls (t : list call) : list string :=
  omap (fun c => match c with C_torch_save _ path _ => Some path | _ => None end) t.

(** A relation between the files before and after a method that holds
    whatever the world and however the method ends. *)
Definition steady {H A : Type} (R : gmap string file → gmap string file → Prop)
    (m : M H A) : Prop :=
  ∀ w, R (w_files w) (w_files (m w).1.2).


(** An evaluation call as [train] makes it: on the task's evaluation
    object, by keyword, the model being the task's model and the loader its
    validation or its test loader. *)
Definition keyword_evaluation (p : prepared) (c : call) : Prop :=
  match c with
  | C_evaluation ev args =>
      ev = evaluation p ∧
      ∃ d, args = Keywords (model p) d ∧ (valloader p = Some d ∨ d = testloader p)
  | _ => True
  end.

(** A call that [eval] can make: a print, the load of the weight file, the
    load of the state into the model, the evaluation. *)
Definition eval_call (c : call) : Prop :=
  match c with
  | C_print _ | C_torch_load _ _ | C_load_state_dict _ _ _ | C_evaluation _ _ => True
  | _ => False
  end.

(** A call that [prepare] can make: a print, a builder, the collate look-up,
    the loader constructor. *)
Definition prepare_call (c : call) : Prop :=
  match c with
  | C_print _ | C_build_model _ _ _ | C_build_evaluation _ _ | C_build_train_util _
  | C_build_pipeline _ _ _ | C_build_dataset _ _ _ _ | C_collate_fn _ _
  | C_DataLoader _ _ => True
  | _ => False
  end.

(** What [prepare] yields in the scripted environment, mode "test". *)
Definition sim_prepared_test (d : pyval) : prepared := {|
  model := the_model;
  evaluation := the_evaluation;
  d_weight := d;
  train_util := the_train_util;
  train_transforms := None;
  evalu_transforms := pipeline_evalu;
  trainset := None;
  valset := None;
  testset := dataset_test;
  trainloader := None;
  valloader := None;
  testloader := loader_test
|}.

(** ** Inversion of runs *)

Section Runs.

Context {H : Type} (E : Env H).
Implicit Types w : world H.

Lemma bind_Ok {A B} (m : M H A) (k : A → M H B) w b w' t :
  bind m k w = (Ok b, w', t) →
  ∃ a w1 t1 t2, m w = (Ok a, w1, t1) ∧ k a w1 = (Ok b, w', t2) ∧ t = t1 ++ t2.
Proof.
  unfold bind. destruct (m w) as [[[a|e] w1] t1]; [|discriminate].
  destruct (k a w1) as [[r w2] t2] eqn:Hk. intros [= -> -> <-].
  exists a, w1, t1, t2. auto.
Qed.

Lemma bind_run {A B} (m : M H A) (k : A → M H B) w a w1 t1 :
  m w = (Ok a, w1, t1) →
  bind m k w = (let '(r, w2, t2) := k a w1 in (r, w2, t1 ++ t2)).
Proof. unfold bind. intros ->. reflexivity. Qed.

Lemma bind_raise {A B} (m : M H A) (k : A → M H B) w e w1 t1 :
  m w = (Raise e, w1, t1) → bind m k w = (Raise e, w1, t1).
Proof. unfold bind. intros ->. reflexivity. Qed.

Lemma extcall_inv {A} (c : result A → call) (f : ext A) w r w' t :
  extcall c f w = (r, w', t) →
  ∃ h, f (w_ext w) = (r, h) ∧ w' = {| w_ext := h; w_files := w_files w |} ∧ t = [c r].
Proof.
  unfold extcall. destruct (f (w_ext w)) as [r0 h]. intros [= <- <- <-].
  exists h. auto.
Qed.

Lemma subscript_Ok (d : dict) k w v w' t :
  subscript (H:=H) d k w = (Ok v, w', t) → d !! k = Some v ∧ w' = w ∧ t = [].
Proof.
  unfold subscript. destruct (d !! k); cbn; intros [= <- <- <-]; auto.
Qed.






End Runs.

(** ** prepare *)

Section Prepare.

Context {H : Type} (E : Env H).
Implicit Types w : world H.

Lemma mode_valid (s : string) :
  s ∈ ["train"; "test"] ↔ s = "train" ∨ s = "test".
Proof. rewrite !elem_of_cons, elem_of_nil. tauto. Qed.



End Prepare.


(** C7.  [prepare] raises the invalid-mode error at once, with nothing built
    (no call made, the world untouched), whenever the mode is neither
    "train" nor "test"; for those two modes the mode check passes and
    [prepare] is the construction that follows it. *)
Theorem prepare_mode_check {H : Type} (E : Env H) (self : task) (w : world H) :
  (mode self ≠ "train" → mode self ≠ "test" →
   prepare E self w = (Raise mode_error, w, [])) ∧
  (mode self = "train" ∨ mode self = "test" →
   check_mode self w = (Ok tt, w, []) ∧ prepare E self w = build E self w).
Proof.
  unfold prepare, bind, check_mode. split.
  - intros Htrain Htest. rewrite bool_decide_eq_false_2; [reflexivity|].
    rewrite mode_valid. tauto.
  - intros Hm. rewrite bool_decide_eq_true_2 by (by apply mode_valid). cbn.
    split; [reflexivity|]. by destruct (build E self w) as [[r w'] t].
Qed.

Lemma prepare_mode_check_witness :
  prepare (sim_env (sim_script [])) (sim_task "eval" 3) (sim_world ∅)
    = (Raise mode_error, sim_world ∅, []) ∧
  check_mode (sim_task "test" 3) (sim_world ∅) = (Ok tt, sim_world ∅, []).
Proof.
  split.
  - apply (prepare_mode_check (sim_env (sim_script [])) (sim_task "eval" 3)
             (sim_world ∅)); discriminate.
  - apply (prepare_mode_check (sim_env (sim_script [])) (sim_task "test" 3)
             (sim_world ∅)). right. reflexivity.
Defined.





(** ** eval *)

Section Eval.

Context {H : Type} (E : Env H).
Implicit Types w : world H.

(** The [try] block of [eval] never raises. *)
Lemma load_pretrained_total self p w :
  ∃ w1 t1, load_pretrained E self p w = (Ok tt, w1, t1) ∧
           w_files w1 = w_files w ∧
           evaluation_calls t1 = [] ∧ get_mAP_calls t1 = [].
Proof.
  unfold load_pretrained, try_except, bind, print, op_join, torch_load, extcall, ret, raise.
  destruct (d_weight p); cbn; eauto 10.
  destruct (w_files w !! _) as [[sd|]|]; cbn; eauto 10.
  destruct (load_state_dict E (model p) sd false (w_ext w)) as [[[mk uk]|e] h];
    cbn; eauto 10.
Qed.

Lemma eval_run self p w w1 t1 :
  load_pretrained E self p w = (Ok tt, w1, t1) →
  eval E self p w =
    (let '(r, h) := call_evaluation E (evaluation p) (testloader p, model p) (w_ext w1) in
     (r, {| w_ext := h; w_files := w_files w1 |},
      t1 ++ [C_print (Str "Testing the model of highest validation mAP.");
             C_evaluation (evaluation p) (Positional (testloader p) (model p))])).
Proof.
  intros Hl. unfold eval. rewrite (bind_run _ _ _ _ _ _ Hl).
  unfold bind, print, extcall. cbn.
  by destruct (call_evaluation E (evaluation p) (testloader p, model p) (w_ext w1)).
Qed.

End Eval.



(** C6.  The call of the evaluation object in [eval] is positional, test
    loader first: under the contract (model, dataloader) the loader is bound
    to [model] and the model to [dataloader].  No [get_mAP()] follows it,
    nor does one follow the test pass at the end of [train]. *)
Theorem eval_call_breaks_contract {H : Type} (E : Env H) (self : task)
    (p : prepared) (w : world H) :
  evaluation_calls (eval E self p w).2 = [Positional (testloader p) (model p)] ∧
  bind_evaluation (Positional (testloader p) (model p)) = (testloader p, model p) ∧
  get_mAP_calls (eval E self p w).2 = [] ∧
  (∀ vars, get_mAP_calls (test_highest E self p vars w).2 = []).
Proof.
  destruct (load_pretrained_total E self p w) as (w1 & t1 & Hl & _ & He & Hg).
  rewrite (eval_run E _ _ _ _ _ Hl).
  destruct (call_evaluation E (evaluation p) (testloader p, model p) (w_ext w1))
    as [r h]. cbn [snd].
  unfold evaluation_calls, get_mAP_calls in *. rewrite !omap_app, He, Hg.
  repeat split.
  intros vars.
  unfold test_highest, bind, print, op_join, torch_load, extcall, read_mAP, ret, raise.
  destruct (d_weight p); cbn; try reflexivity.
  destruct (w_files w !! _) as [[sd|]|]; cbn; try reflexivity.
  destruct (load_state_dict E (model p) sd true (w_ext w)) as [[ks|e] h'];
    cbn; try reflexivity.
  destruct (call_evaluation E (evaluation p) _ h') as [[[]|e] h'']; cbn; try reflexivity.
  destruct (mAP vars); reflexivity.
Qed.

(** In the scripted environment, whose evaluation object follows the
    contract, [eval] fails at that call. *)
Example eval_fails_in_sim :
  (eval (sim_env (sim_script [])) (sim_task "test" 3)
     (sim_prepared (VStr "weights")) (sim_built ∅)).1.1
  = Raise (Raised "not a model").
Proof. reflexivity. Qed.

(** ** Properties of every entry of the log *)

Section Always.

Context {H : Type} (E : Env H).
Implicit Types w : world H.
Context (P : call → Prop).

Lemma always_ret {A} (a : A) : always (H:=H) P (ret a).
Proof. intros w. constructor. Qed.

Lemma always_raise {A} e : always (H:=H) (A:=A) P (raise e).
Proof. intros w. constructor. Qed.

Lemma always_bind {A B} (m : M H A) (k : A → M H B) :
  always P m → (∀ a, always P (k a)) → always P (bind m k).
Proof.
  intros Hm Hk w. unfold bind. specialize (Hm w).
  destruct (m w) as [[[a|e] w1] t1]; [|exact Hm].
  specialize (Hk a w1). destruct (k a w1) as [[r w2] t2].
  apply Forall_app. split; assumption.
Qed.

Lemma always_bind_ret {A B} (x : A) (k : A → M H B) :
  always P (k x) → always P (bind (ret x) k).
Proof.
  intros Hk w. unfold bind, ret. specialize (Hk w).
  destruct (k x w) as [[r w2] t2]. exact Hk.
Qed.

Lemma always_try_except {A} (body handler : M H A) :
  always P body → always P handler → always P (try_except body handler).
Proof.
  intros Hb Hh w. unfold try_except. specialize (Hb w).
  destruct (body w) as [[[a|e] w1] t1]; [exact Hb|].
  specialize (Hh w1). destruct (handler w1) as [[r w2] t2].
  apply Forall_app. split; assumption.
Qed.

Lemma always_print l : P (C_print l) → always (H:=H) P (print l).
Proof. intros Hp w. repeat constructor. exact Hp. Qed.

Lemma always_extcall {A} (c : result A → call) (f : ext (H:=H) A) :
  (∀ r, P (c r)) → always P (extcall c f).
Proof.
  intros Hp w. unfold extcall. destruct (f (w_ext w)) as [r h].
  repeat constructor. apply Hp.
Qed.

Lemma always_subscript (d : dict) k : always (H:=H) P (subscript d k).
Proof. intros w. unfold subscript. destruct (d !! k); constructor. Qed.

Lemma always_attr a o : always (H:=H) P (attr a o).
Proof. intros w. destruct o; constructor. Qed.

Lemma always_op_join d s : always (H:=H) P (op_join d s).
Proof. intros w. destruct d; constructor. Qed.

Lemma always_range n : always (H:=H) P (range n).
Proof. intros w. destruct n; constructor. Qed.

Lemma always_read_mAP vars : always (H:=H) P (read_mAP vars).
Proof. intros w. unfold read_mAP. destruct (mAP vars); constructor. Qed.

Lemma always_torch_save sd path :
  (∀ b, P (C_torch_save sd path b)) → always P (torch_save E sd path).
Proof.
  intros Hp w. unfold torch_save.
  destruct (save_fault E sd path (w_ext w)) as [[e b]|]; repeat constructor; apply Hp.
Qed.

Lemma always_torch_load path dev :
  P (C_torch_load path dev) → always (H:=H) P (torch_load path dev).
Proof.
  intros Hp w. unfold torch_load.
  destruct (w_files w !! path) as [[sd|]|]; repeat constructor; exact Hp.
Qed.

Lemma always_for_each {A S} (l : list A) (body : S → A → M H S) s :
  (∀ s x, always P (body s x)) → always P (for_each l body s).
Proof.
  intros Hb. revert s. induction l as [|x l IH]; intros s; cbn.
  - apply always_ret.
  - apply always_bind; [apply Hb|]. intros s'. apply IH.
Qed.

End Always.

(** Proves that every entry of the log of a method satisfies a property that
    holds of each call the method can make. *)
Ltac always_step :=
  first
    [ apply always_ret | apply always_raise | apply always_subscript
    | apply always_attr | apply always_op_join | apply always_range
    | apply always_read_mAP
    | apply always_print | apply always_extcall; intros
    | apply always_torch_save; intros | apply always_torch_load
    | apply always_try_except
    | apply always_for_each; intros
    | apply always_bind_ret
    | apply always_bind; [|intros]
    | match goal with |- always _ (if ?b then _ else _) => destruct b end ].

Section Paths.

Context {H : Type} (E : Env H).
Implicit Types w : world H.

Lemma on_path_weight_paths path t :
  Forall (on_path path) t → Forall (eq path) (weight_paths t).
Proof.
  induction 1 as [|c t Hc _ IH]; [constructor|].
  unfold weight_paths in *. destruct c; cbn in *; auto.
Qed.

Lemma train_on_path self p a :
  d_weight p = VStr a → always (on_path (weight_path self a)) (train E self p).
Proof.
  intros Ha. unfold train, train_loop, test_highest, epoch_body, train_and_validate,
    step_and_save, save_highest, save_attempt.
  rewrite Ha. cbn [op_join].
  repeat always_step; try exact I; reflexivity.
Qed.

Lemma eval_on_path self p a :
  d_weight p = VStr a → always (on_path (weight_path self a)) (eval E self p).
Proof.
  intros Ha. unfold eval, load_pretrained.
  rewrite Ha. cbn [op_join].
  repeat always_step; try exact I; reflexivity.
Qed.

Lemma prefix_slash (s : string) :
  String.prefix "/" s = false → String.prefix "/" (s +:+ "-model-highest.pth") = false.
Proof.
  destruct s as [|c s]; [reflexivity|].
  change (String c s +:+ "-model-highest.pth")
    with (String c (s +:+ "-model-highest.pth")).
  cbn -[Ascii.ascii_dec String.append].
  match goal with
  | |- context [Ascii.ascii_dec ?x ?y] => destruct (Ascii.ascii_dec x y)
  end; [|reflexivity].
  by destruct s.
Qed.

End Paths.

(** C9, as amended.  The weight file is at
    [os.path.join(d_weight, project + "-model-highest.pth")], a function of
    the project name and the weight directory alone, and every [torch.save]
    and [torch.load] of [train] and of [eval] (the save in the loop, the
    strict reload after it, the non-strict load of [eval]) is on that path.
    It is {d_weight}/{project}-model-highest.pth whenever the directory is
    not empty and does not end with a slash and the project name does not
    start with one. *)
Theorem weight_path_shared {H : Type} (E : Env H) (self : task) (p : prepared)
    (a : string) :
  d_weight p = VStr a →
  (∀ w, Forall (eq (weight_path self a)) (weight_paths (train E self p w).2)) ∧
  (∀ w, Forall (eq (weight_path self a)) (weight_paths (eval E self p w).2)) ∧
  (a ≠ "" → endswith a "/" = false → String.prefix "/" (project self) = false →
   weight_path self a = spec_path a (project self)).
Proof.
  intros Ha. split; [|split].
  - intros w. apply on_path_weight_paths, (train_on_path E self p a Ha).
  - intros w. apply on_path_weight_paths, (eval_on_path E self p a Ha).
  - intros Hne Hend Hpre. unfold weight_path, join, spec_path.
    rewrite (prefix_slash _ Hpre), Hend.
    destruct (String.eqb_spec a ""); [congruence|]. reflexivity.
Qed.

Lemma weight_path_shared_witness :
  weight_paths (train (sim_env (sim_script [f0_5; f0_7; f0_6])) (sim_task "train" 3)
                  (sim_prepared (VStr "weights")) (sim_built ∅)).2
    = [sim_path; sim_path; sim_path] ∧
  weight_path (sim_task "train" 3) "weights" = spec_path "weights" default_project.
Proof.
  destruct (weight_path_shared (sim_env (sim_script [f0_5; f0_7; f0_6]))
              (sim_task "train" 3) (sim_prepared (VStr "weights")) "weights" eq_refl)
    as (_ & _ & Hf).
  split; [vm_compute; reflexivity|].
  apply Hf; [discriminate|reflexivity|reflexivity].
Defined.

(** C9 as stated fails for an empty weight directory: the file is then
    looked up in the working directory, not under the root. *)
Lemma weight_path_formula_counterexample :
  weight_paths (eval (sim_env (sim_script [])) (sim_task "test" 3)
                  (sim_prepared (VStr "")) (sim_built ∅)).2
    = ["InstanceAttributeRecognitionProject-model-highest.pth"] ∧
  "InstanceAttributeRecognitionProject-model-highest.pth"
    ≠ spec_path "" (project (sim_task "test" 3)).
Proof. split; [reflexivity|discriminate]. Qed.

(** ** The order of floats *)

Ltac cmp_cases :=
  repeat match goal with
  | |- context [Z.compare ?x ?y] => destruct (Z.compare_spec x y)
  | Hc : context [Z.compare ?x ?y] |- _ => destruct (Z.compare_spec x y)
  | |- context [Pos.compare_cont Eq ?x ?y] =>
      change (Pos.compare_cont Eq x y) with (Pos.compare x y);
      destruct (Pos.compare_spec x y)
  | Hc : context [Pos.compare_cont Eq ?x ?y] |- _ =>
      change (Pos.compare_cont Eq x y) with (Pos.compare x y) in Hc;
      destruct (Pos.compare_spec x y)
  end.

Ltac float_cases :=
  intros;
  repeat match goal with
  | a : spec_float |- _ => destruct a
  | b : bool |- _ => destruct b
  end;
  cbn in *; try discriminate; try reflexivity; try congruence;
  cmp_cases; cbn in *; try discriminate; try reflexivity; try congruence; try lia.

Lemma SFcompare_lt_trans a b c :
  SFcompare a b = Some Lt → SFcompare b c = Some Lt → SFcompare a c = Some Lt.
Proof. float_cases. Qed.

Lemma SFcompare_lt_irrefl a : SFcompare a a ≠ Some Lt.
Proof. float_cases. Qed.


Lemma float_gt_lt a b : float_gt a b = true ↔ SFcompare b a = Some Lt.
Proof.
  unfold float_gt, SFltb. destruct (SFcompare b a) as [[]|]; split; congruence.
Qed.

Lemma float_gt_trans a b c :
  float_gt a b = true → float_gt b c = true → float_gt a c = true.
Proof. rewrite !float_gt_lt. eauto using SFcompare_lt_trans. Qed.

Lemma float_gt_irrefl a : float_gt a a = false.
Proof.
  apply not_true_is_false. rewrite float_gt_lt. apply SFcompare_lt_irrefl.
Qed.

Lemma float_gt_not_nan a b : float_gt a b = true → is_nan a = false ∧ is_nan b = false.
Proof. rewrite float_gt_lt. by destruct a, b. Qed.


(** ** train *)

Section Train.

Context {H : Type} (E : Env H).
Implicit Types w : world H.
Context (self : task) (p : prepared).

Lemma attr_Ok a o w x w' t :
  attr (H:=H) a o w = (Ok x, w', t) → o = Some x ∧ w' = w ∧ t = [].
Proof. destruct o; cbn; intros [= <- <- <-]; auto. Qed.

Lemma train_and_validate_Ok optimizer epoch w m w1 t1 :
  train_and_validate E self p optimizer epoch w = (Ok m, w1, t1) →
  ∃ loader val epochs amp,
    trainloader p = Some loader ∧ valloader p = Some val ∧
    w_files w1 = w_files w ∧
    t1 = [C_train_util (train_util p) (model p) loader optimizer epoch epochs
            (device self) amp;
          C_evaluation (evaluation p) (Keywords (model p) val);
          C_get_mAP (evaluation p) (Ok m)].
Proof.
  unfold train_and_validate. intros Hr.
  repeat match goal with
  | Hr : bind _ _ _ = (Ok _, _, _) |- _ =>
      apply bind_Ok in Hr as (? & ? & ? & ? & ? & Hr & ->)
  | Hr : extcall _ _ _ = (_, _, _) |- _ =>
      apply extcall_inv in Hr as (? & ? & -> & ->)
  | Hr : subscript _ _ _ = (Ok _, _, _) |- _ =>
      apply subscript_Ok in Hr as (? & -> & ->)
  | Hr : attr _ _ _ = (Ok _, _, _) |- _ =>
      apply attr_Ok in Hr as (? & -> & ->)
  end.
  eexists _, _, _, _. repeat split; try eassumption.
Qed.

(** What the [try] block of the loop does, case by case.  It never raises. *)
Lemma save_highest_run w :
  ∃ r h, model_state_dict E (model p) (w_ext w) = (r, h) ∧
    match r, d_weight p with
    | Ok sd, VStr a =>
        match save_fault E sd (weight_path self a) h with
        | None =>
            save_highest E self p w =
              (Ok tt, {| w_ext := h;
                         w_files := <[weight_path self a := Weights sd]> (w_files w) |},
               [C_state_dict (model p) r; C_torch_save sd (weight_path self a) true])
        | Some (e, partial) =>
            save_highest E self p w =
              (Ok tt, {| w_ext := h;
                         w_files := if partial
                                    then <[weight_path self a := Garbage]> (w_files w)
                                    else w_files w |},
               [C_state_dict (model p) r; C_torch_save sd (weight_path self a) false;
                C_print (Str "Save Model Weight Failed!")])
        end
    | _, _ =>
        save_highest E self p w =
          (Ok tt, {| w_ext := h; w_files := w_files w |},
           [C_state_dict (model p) r; C_print (Str "Save Model Weight Failed!")])
    end.
Proof.
  unfold save_highest, save_attempt, try_except, bind, extcall, op_join, torch_save,
    print, ret, raise, weight_path.
  destruct (model_state_dict E (model p) (w_ext w)) as [[sd|e] h];
    eexists _, h; (split; [reflexivity|]); cbn.
  - destruct (d_weight p); cbn; try reflexivity.
    destruct (save_fault E sd _ h) as [[e b]|]; reflexivity.
  - reflexivity.
Qed.

Lemma step_and_save_Ok scheduler vars m w1 vars1 w2 t2 :
  step_and_save E self p scheduler vars m w1 = (Ok vars1, w2, t2) →
  ∃ h ts,
    scheduler_step E scheduler m (w_ext w1) = (Ok tt, h) ∧
    t2 = C_scheduler_step scheduler m :: ts ∧
    mAP vars1 = Some m ∧
    if float_gt m (highest_mAP vars) then
      highest_mAP vars1 = m ∧
      save_highest E self p {| w_ext := h; w_files := w_files w1 |} = (Ok tt, w2, ts)
    else
      highest_mAP vars1 = highest_mAP vars ∧ ts = [] ∧
      w2 = {| w_ext := h; w_files := w_files w1 |}.
Proof.
  unfold step_and_save.
  intros ([] & w' & t1 & ts & (h & Hs & -> & ->)%extcall_inv & Hk & ->)%bind_Ok.
  exists h, ts. split; [exact Hs|]. split; [reflexivity|].
  destruct (float_gt m (highest_mAP vars)).
  - apply bind_Ok in Hk as ([] & w3 & t3 & t4 & Hsave & Hret & ->).
    unfold ret in Hret. injection Hret as <- <- <-.
    rewrite app_nil_r. cbn. auto.
  - unfold ret in Hk. injection Hk as <- <- <-. cbn. auto.
Qed.

End Train.

(** C8.  In an epoch whose validation mAP exceeds the best so far and whose
    save fails, the failure is caught and "Save Model Weight Failed!" is
    printed; the iteration ends normally with [highest_mAP] set to the new
    mAP, as after a save that succeeded, and the loop goes on with the
    remaining epochs. *)
Theorem save_failure_tolerated {H : Type} (E : Env H) (self : task) (p : prepared)
    (optimizer scheduler : obj) (vars : locals) (epoch : Z) (l : list Z)
    (w : world H) m w1 t1 h e w2 t2 :
  train_and_validate E self p optimizer epoch w = (Ok m, w1, t1) →
  scheduler_step E scheduler m (w_ext w1) = (Ok tt, h) →
  float_gt m (highest_mAP vars) = true →
  save_attempt E self p {| w_ext := h; w_files := w_files w1 |} = (Raise e, w2, t2) →
  let vars' := {| highest_mAP := m; mAP := Some m |} in
  let t := t1 ++ C_scheduler_step scheduler m :: t2
              ++ [C_print (Str "Save Model Weight Failed!")] in
  epoch_body E self p optimizer scheduler vars epoch w = (Ok vars', w2, t) ∧
  for_each (epoch :: l) (epoch_body E self p optimizer scheduler) vars w =
    (let '(r, w3, t3) := for_each l (epoch_body E self p optimizer scheduler) vars' w2 in
     (r, w3, t ++ t3)).
Proof.
  intros Htv Hstep Hgt Hsave vars' t.
  assert (Hbody : epoch_body E self p optimizer scheduler vars epoch w = (Ok vars', w2, t)).
  { unfold epoch_body. rewrite (bind_run _ _ _ _ _ _ Htv).
    unfold step_and_save, bind at 1, extcall. rewrite Hstep, Hgt.
    unfold bind, save_highest, try_except. rewrite Hsave. cbn.
    by rewrite app_nil_r. }
  split; [exact Hbody|].
  cbn [for_each]. by rewrite (bind_run _ _ _ _ _ _ Hbody).
Qed.

Lemma save_failure_tolerated_witness :
  let sc := {| val_scores := [f0_5; f0_7]; test_score := f0_5; dataset_collate := None;
               failing_saves := [0%Z]; partial_write := false |} in
  let body := epoch_body (sim_env sc) (sim_task "train" 2) (sim_prepared (VStr "weights"))
                the_optimizer the_scheduler in
  ∃ w2 t,
    body initial_locals 0%Z (sim_built ∅)
      = (Ok {| highest_mAP := f0_5; mAP := Some f0_5 |}, w2, t) ∧
    last t = Some (C_print (Str "Save Model Weight Failed!")) ∧
    w_files w2 = ∅ ∧
    for_each [0%Z; 1%Z] body initial_locals (sim_built ∅) =
      (let '(r, w3, t3) := for_each [1%Z] body {| highest_mAP := f0_5; mAP := Some f0_5 |} w2 in
       (r, w3, t ++ t3)).
Proof.
  intros sc body.
  pose proof (save_failure_tolerated (sim_env sc) (sim_task "train" 2)
                (sim_prepared (VStr "weights")) the_optimizer the_scheduler
                initial_locals 0%Z [1%Z] (sim_built ∅) f0_5 _ _ _
                (Raised "OSError") _ _ eq_refl eq_refl eq_refl eq_refl) as [Hb Hl].
  eexists _, _. split; [exact Hb|]. split; [reflexivity|]. split; [reflexivity|].
  exact Hl.
Defined.

(** ** The loop *)

Section Loop.

Context {H : Type} (E : Env H).
Implicit Types w : world H.
Context (self : task) (p : prepared).

Lemma for_each_epochs optimizer scheduler l vars w vars' w' t :
  for_each l (epoch_body E self p optimizer scheduler) vars w = (Ok vars', w', t) →
  ∃ obs, epochs_run E self p optimizer scheduler l vars w obs vars' w' ∧
         t = concat (map snd obs).
Proof.
  revert vars w t. induction l as [|epoch l IH]; intros vars w t; cbn [for_each].
  - unfold ret. intros [= <- <- <-]. exists []. split; [constructor|reflexivity].
  - intros (vars1 & w2 & tb & tl & Hb & Hl & ->)%bind_Ok.
    unfold epoch_body in Hb.
    apply bind_Ok in Hb as (m & w1 & t1 & t2 & Htv & Hs & ->).
    destruct (IH _ _ _ Hl) as (obs & Hrun & ->).
    exists ((m, t1 ++ t2) :: obs). split; [|reflexivity].
    econstructor; eassumption.
Qed.

Lemma range_Ok n w l w' t :
  range (H:=H) n w = (Ok l, w', t) → w' = w ∧ t = [].
Proof. destruct n; cbn; intros [= <- <- <-]; auto. Qed.

Lemma train_loop_Ok w vars w' t :
  train_loop E self p w = (Ok vars, w', t) →
  ∃ optimizer scheduler epochs w0 obs,
    w_files w0 = w_files w ∧
    epochs_run E self p optimizer scheduler epochs initial_locals w0 obs vars w' ∧
    t = [C_get_optimizer (model p); C_ReduceLROnPlateau optimizer]
          ++ concat (map snd obs).
Proof.
  unfold train_loop. intros Hr.
  apply bind_Ok in Hr as (optimizer & ? & ? & ? & (? & _ & -> & ->)%extcall_inv & Hr & ->).
  apply bind_Ok in Hr as (scheduler & ? & ? & ? & (? & _ & -> & ->)%extcall_inv & Hr & ->).
  apply bind_Ok in Hr as (n & ? & ? & ? & (_ & -> & ->)%subscript_Ok & Hr & ->).
  apply bind_Ok in Hr as (epochs & ? & ? & ? & (-> & ->)%range_Ok & Hr & ->).
  apply for_each_epochs in Hr as (obs & Hrun & ->).
  eexists optimizer, scheduler, epochs, _, obs. split; [|split; [exact Hrun|]];
    reflexivity.
Qed.

(** One iteration, summed up. *)
Lemma epoch_summary optimizer scheduler epoch vars w m w1 t1 vars1 w2 t2 :
  train_and_validate E self p optimizer epoch w = (Ok m, w1, t1) →
  step_and_save E self p scheduler vars m w1 = (Ok vars1, w2, t2) →
  mAP vars1 = Some m ∧
  mAPs_read (t1 ++ t2) = [m] ∧
  highest_mAP vars1
    = (if float_gt m (highest_mAP vars) then m else highest_mAP vars) ∧
  save_attempted (t1 ++ t2) = float_gt m (highest_mAP vars) ∧
  (float_gt m (highest_mAP vars) = false → w_files w2 = w_files w) ∧
  ((saved (t1 ++ t2) = [] ∧
    ∀ q, readable (w_files w2 !! q) = true → readable (w_files w !! q) = true)
   ∨ (∃ sd a, float_gt m (highest_mAP vars) = true ∧ d_weight p = VStr a ∧
              C_state_dict (model p) (Ok sd) ∈ t1 ++ t2 ∧
              saved (t1 ++ t2) = [(sd, weight_path self a)] ∧
              w_files w2 !! weight_path self a = Some (Weights sd))).
Proof.
  intros (loader & val & epochs & amp & _ & _ & Hf & ->)%train_and_validate_Ok
         (h & ts & _ & -> & Hm & Hs)%step_and_save_Ok.
  split; [exact Hm|]. rewrite <- Hf. clear Hf.
  destruct (float_gt m (highest_mAP vars)).
  - destruct Hs as [Hh Hs]. rewrite Hh.
    destruct (save_highest_run E self p {| w_ext := h; w_files := w_files w1 |})
      as (r & h' & _ & Hrun).
    destruct r as [sd|e], (d_weight p) as [|b|z|f|a|o|d] eqn:Hd;
      cbn [w_ext w_files] in Hrun;
      try (rewrite Hs in Hrun; injection Hrun as -> ->; cbn;
           repeat split; try done; left; split; [reflexivity|auto]).
    destruct (save_fault E sd (weight_path self a) h') as [[e b]|];
      rewrite Hs in Hrun; injection Hrun as -> ->; cbn; repeat split; try done.
    + left. split; [reflexivity|]. destruct b; [|auto].
      intros q. destruct (decide (weight_path self a = q)) as [->|Hne].
      * by rewrite lookup_insert_eq.
      * by rewrite lookup_insert_ne.
    + right. exists sd, a. rewrite lookup_insert_eq.
      repeat split; try done. repeat constructor.
  - destruct Hs as (-> & -> & ->). cbn. repeat split; try done. left. auto.
Qed.

Lemma epochs_run_mAP optimizer scheduler l vars w obs vars' w' :
  epochs_run E self p optimizer scheduler l vars w obs vars' w' →
  mAP vars' = match last (map fst obs) with
              | Some m => Some m
              | None => mAP vars
              end.
Proof.
  induction 1 as [|epoch l vars w m w1 t1 vars1 w2 t2 obs vars' w' Htv Hs _ IH];
    [reflexivity|].
  destruct (epoch_summary _ _ _ _ _ _ _ _ _ _ _ Htv Hs) as (Hm & _).
  rewrite IH, Hm. cbn [map fst]. rewrite last_cons.
  by destruct (last (map fst obs)).
Qed.

(** The scores read back in the loop are the validation scores, in order. *)
Lemma epochs_run_mAPs_read optimizer scheduler l vars w obs vars' w' :
  epochs_run E self p optimizer scheduler l vars w obs vars' w' →
  mAPs_read (concat (map snd obs)) = map fst obs.
Proof.
  induction 1 as [|epoch l vars w m w1 t1 vars1 w2 t2 obs vars' w' Htv Hs _ IH];
    [reflexivity|].
  destruct (epoch_summary _ _ _ _ _ _ _ _ _ _ _ Htv Hs) as (_ & Hr & _).
  cbn. unfold mAPs_read in *. by rewrite omap_app, Hr, IH.
Qed.

Lemma best_of_nil : best_of [] float_zero.
Proof.
  repeat split; [by left|]. intros m Hm. by apply elem_of_nil in Hm.
Qed.

Lemma best_of_snoc ms h m :
  best_of ms h → best_of (ms ++ [m]) (if float_gt m h then m else h).
Proof.
  intros (Hn & Hz & Hin & Hmax). destruct (float_gt m h) eqn:Hgt.
  - repeat split.
    + exact (proj1 (float_gt_not_nan _ _ Hgt)).
    + apply not_true_is_false. intros H0.
      rewrite (float_gt_trans _ _ _ H0 Hgt) in Hz. discriminate.
    + right. apply elem_of_app. right. by apply list_elem_of_singleton.
    + intros m' [Hm'| ->%list_elem_of_singleton]%elem_of_app.
      * apply not_true_is_false. intros Hg. specialize (Hmax m' Hm').
        rewrite (float_gt_trans _ _ _ Hg Hgt) in Hmax. discriminate.
      * apply float_gt_irrefl.
  - repeat split; [done|done| |].
    + destruct Hin; [by left|right]. apply elem_of_app. by left.
    + intros m' [Hm'| ->%list_elem_of_singleton]%elem_of_app; auto.
Qed.




(** Scores that never exceed 0 leave [highest_mAP] at 0 and save nothing. *)
Lemma no_gain_no_save optimizer scheduler l vars w obs vars' w' :
  epochs_run E self p optimizer scheduler l vars w obs vars' w' →
  highest_mAP vars = float_zero →
  Forall (fun m => float_gt m float_zero = false) (map fst obs) →
  saved (concat (map snd obs)) = [].
Proof.
  induction 1 as [|epoch l vars w m w1 t1 vars1 w2 t2 obs vars' w' Htv Hs _ IH];
    intros Hz Hlow; [reflexivity|].
  cbn in Hlow. apply Forall_cons in Hlow as [Hm Hlow].
  destruct (epoch_summary _ _ _ _ _ _ _ _ _ _ _ Htv Hs)
    as (_ & _ & Hh & _ & _ & Hsaved).
  rewrite Hz, Hm in Hh, Hsaved.
  destruct Hsaved as [[Hnone _]|(sd & a & Habs & _)]; [|discriminate].
  cbn. unfold saved in *. rewrite omap_app, Hnone. cbn. by apply IH.
Qed.

(** Without a successful save, no path becomes readable. *)
Lemma unreadable_kept optimizer scheduler l vars w obs vars' w' :
  epochs_run E self p optimizer scheduler l vars w obs vars' w' →
  saved (concat (map snd obs)) = [] →
  ∀ q, readable (w_files w' !! q) = true → readable (w_files w !! q) = true.
Proof.
  induction 1 as [|epoch l vars w m w1 t1 vars1 w2 t2 obs vars' w' Htv Hs _ IH];
    intros Hnone q; [done|].
  cbn in Hnone. unfold saved in Hnone. rewrite omap_app in Hnone.
  apply app_eq_nil in Hnone as [Hthis Hrest].
  destruct (epoch_summary _ _ _ _ _ _ _ _ _ _ _ Htv Hs)
    as (_ & _ & _ & _ & _ & Hsaved).
  destruct Hsaved as [[_ Hkeep]|(sd & a & _ & _ & _ & Hsv & _)].
  - intros Hq. apply Hkeep. by apply IH.
  - unfold saved in Hsv. rewrite Hsv in Hthis. discriminate.
Qed.

Lemma test_highest_Ok vars w u w' t :
  test_highest E self p vars w = (Ok u, w', t) →
  ∃ m a sd,
    mAP vars = Some m ∧ d_weight p = VStr a ∧
    w_files w !! weight_path self a = Some (Weights sd) ∧
    t = [C_print (Str "Finish Train");
         C_print (Str "Testing the model of highest validation mAP.");
         C_torch_load (weight_path self a) (device self);
         C_load_state_dict (model p) sd true;
         C_evaluation (evaluation p) (Keywords (model p) (testloader p));
         C_print (Str "Finish Test");
         C_print (ResDict "test_mAP" m)].
Proof.
  unfold test_highest, bind, print, op_join, torch_load, extcall, read_mAP, ret, raise,
    weight_path.
  destruct (d_weight p) as [|b|z|f|a|o|d]; cbn; try discriminate.
  destruct (w_files w !! _) as [[sd|]|] eqn:Hf; cbn; try discriminate.
  destruct (load_state_dict E (model p) sd true (w_ext w)) as [[ks|e] h];
    cbn; try discriminate.
  destruct (call_evaluation E (evaluation p) _ h) as [[[]|e] h']; cbn; try discriminate.
  destruct (mAP vars) as [m|]; cbn; try discriminate.
  intros [= <- <- <-]. by exists m, a, sd.
Qed.

Lemma test_highest_Raise vars w e w' t :
  test_highest E self p vars w = (Raise e, w', t) → results_printed t = [].
Proof.
  unfold test_highest, bind, print, op_join, torch_load, extcall, read_mAP, ret, raise.
  destruct (d_weight p) as [|b|z|f|a|o|d]; cbn; try by intros [= <- <- <-].
  destruct (w_files w !! _) as [[sd|]|]; cbn; try by intros [= <- <- <-].
  destruct (load_state_dict E (model p) sd true (w_ext w)) as [[ks|e'] h];
    cbn; try by intros [= <- <- <-].
  destruct (call_evaluation E (evaluation p) _ h) as [[[]|e'] h'];
    cbn; try by intros [= <- <- <-].
  destruct (mAP vars) as [m|]; cbn; [discriminate|by intros [= <- <- <-]].
Qed.

Lemma no_result_printed t : Forall no_result t → results_printed t = [].
Proof.
  induction 1 as [|c t Hc _ IH]; [reflexivity|].
  unfold results_printed in *. destruct c as [[]| | | | | | | | | | | | | | | | |];
    cbn in *; try done.
Qed.

Lemma train_loop_no_result : always no_result (train_loop E self p).
Proof.
  unfold train_loop, epoch_body, train_and_validate, step_and_save, save_highest,
    save_attempt.
  repeat always_step; exact I.
Qed.


End Loop.

(** C1.  In every run of [train], a test result is printed only when
    [train] completes, and the value then printed under "test_mAP" is the
    validation mAP of the last epoch: the last score read back with
    [get_mAP()], which happens in the loop.  The evaluation on the test
    loader comes after it and is followed by the two prints only; its score
    is never read. *)
Theorem test_mAP_is_last_validation_mAP {H : Type} (E : Env H) (self : task)
    (p : prepared) (w : world H) r w' t :
  train E self p w = (r, w', t) →
  (∃ e, r = Raise e ∧ results_printed t = []) ∨
  (r = Ok tt ∧
   ∃ optimizer scheduler epochs w0 obs vars w1 m t0,
     epochs_run E self p optimizer scheduler epochs initial_locals w0 obs vars w1 ∧
     mAPs_read t = map fst obs ∧
     last (map fst obs) = Some m ∧
     t = t0 ++ [C_evaluation (evaluation p) (Keywords (model p) (testloader p));
                C_print (Str "Finish Test");
                C_print (ResDict "test_mAP" m)] ∧
     results_printed t = [("test_mAP", m)]).
Proof.
  unfold train, bind.
  pose proof (train_loop_no_result E self p w) as Hnone.
  destruct (train_loop E self p w) as [[[vars|e] w1] t1] eqn:Hloop;
    cbn [snd] in Hnone; apply no_result_printed in Hnone.
  2:{ intros [= <- <- <-]. left. by exists e. }
  destruct (test_highest E self p vars w1) as [[[[]|e] w2] t2] eqn:Htest;
    intros [= <- <- <-].
  2:{ left. exists e. split; [reflexivity|].
      apply test_highest_Raise in Htest.
      unfold results_printed in *. by rewrite omap_app, Hnone, Htest. }
  right. split; [reflexivity|].
  apply train_loop_Ok in Hloop
    as (optimizer & scheduler & epochs & w0 & obs & _ & Hrun & ->).
  apply test_highest_Ok in Htest as (m & a & sd & Hm & _ & _ & ->).
  pose proof (epochs_run_mAP E self p _ _ _ _ _ _ _ _ Hrun) as Hlast.
  rewrite Hm in Hlast. cbn [mAP initial_locals] in Hlast.
  exists optimizer, scheduler, epochs, w0, obs, vars, w1, m.
  eexists (_ ++ [_; _; _; _]). split; [exact Hrun|]. split; [|split; [|split]].
  - unfold mAPs_read. rewrite !omap_app. cbn.
    rewrite app_nil_r. apply (epochs_run_mAPs_read E self p _ _ _ _ _ _ _ _ Hrun).
  - by destruct (last (map fst obs)).
  - apply (app_assoc _ [_; _; _; _] [_; _; _]).
  - unfold results_printed in *. rewrite omap_app, Hnone. reflexivity.
Qed.

Lemma test_mAP_is_last_validation_mAP_witness :
  let run := train (sim_env (sim_script [f0_5; f0_7; f0_6])) (sim_task "train" 3)
               (sim_prepared (VStr "weights")) (sim_built ∅) in
  run = (Ok tt, run.1.2, run.2) ∧
  ∃ m, results_printed run.2 = [("test_mAP", m)] ∧
       m = f0_6 ∧
       test_score (sim_script [f0_5; f0_7; f0_6]) = f0_5.
Proof.
  intros run.
  assert (Hrun : run = (Ok tt, run.1.2, run.2)) by (vm_compute; reflexivity).
  split; [exact Hrun|].
  destruct (test_mAP_is_last_validation_mAP _ _ _ _ _ _ _ Hrun)
    as [(e & He & _)|(_ & _ & _ & _ & _ & _ & _ & _ & m & _ & _ & _ & _ & _ & Hres)];
    [discriminate He|].
  exists m. split; [exact Hres|]. split; [|reflexivity].
  assert (Hc : results_printed run.2 = [("test_mAP", f0_6)])
    by (vm_compute; reflexivity).
  rewrite Hres in Hc. by injection Hc.
Defined.




(** C10, as amended.  When nothing readable is at the weight path as
    [train] starts and the loop completes without a successful save (as it
    does when no validation mAP exceeds 0, and when every save fails), the
    reload after the loop raises: [train] ends with that exception, right
    after the load, and prints no test result. *)
Theorem final_load_unguarded {H : Type} (E : Env H) (self : task) (p : prepared)
    (a : string) (w : world H) vars w1 t1 :
  d_weight p = VStr a →
  readable (w_files w !! weight_path self a) = false →
  train_loop E self p w = (Ok vars, w1, t1) →
  Forall (fun m => float_gt m float_zero = false) (mAPs_read t1) ∨ saved t1 = [] →
  saved t1 = [] ∧
  ∃ e,
    (e = FileNotFoundError (weight_path self a) ∨
     e = UnpicklingError (weight_path self a)) ∧
    train E self p w =
      (Raise e, w1,
       t1 ++ [C_print (Str "Finish Train");
              C_print (Str "Testing the model of highest validation mAP.");
              C_torch_load (weight_path self a) (device self)]) ∧
    results_printed (train E self p w).2 = [].
Proof.
  intros Ha Hfile Hloop Hcase.
  pose proof (train_loop_no_result E self p w) as Hnone.
  rewrite Hloop in Hnone. cbn [snd] in Hnone. apply no_result_printed in Hnone.
  assert (Hfacts : saved t1 = [] ∧
                   readable (w_files w1 !! weight_path self a) = false).
  { destruct (train_loop_Ok E self p _ _ _ _ Hloop)
      as (optimizer & scheduler & epochs & w0 & obs & Hw0 & Hrun & ->).
    assert (Hsaved : saved (concat (map snd obs)) = []).
    { destruct Hcase as [Hlow|Hs].
      - apply (no_gain_no_save E self p _ _ _ _ _ _ _ _ Hrun); [reflexivity|].
        rewrite <- (epochs_run_mAPs_read E self p _ _ _ _ _ _ _ _ Hrun).
        unfold mAPs_read in Hlow. rewrite omap_app in Hlow. exact Hlow.
      - unfold saved in Hs. rewrite omap_app in Hs. exact Hs. }
    split.
    - unfold saved in *. rewrite omap_app. exact Hsaved.
    - apply not_true_is_false. intros Hr.
      apply (unreadable_kept E self p _ _ _ _ _ _ _ _ Hrun Hsaved) in Hr.
      rewrite Hw0, Hfile in Hr. discriminate. }
  destruct Hfacts as [Hsaved Hw1]. split; [exact Hsaved|].
  unfold train. rewrite (bind_run _ _ _ _ _ _ Hloop).
  unfold test_highest, bind, print, op_join, torch_load, weight_path in *.
  rewrite Ha. cbn.
  destruct (w_files w1 !! _) as [[sd|]|]; [discriminate|..]; cbn;
    eexists; (split; [|split; [reflexivity|]]); eauto;
    unfold results_printed in *; rewrite omap_app, Hnone; reflexivity.
Qed.

Lemma final_load_unguarded_witness :
  let loop := train_loop (sim_env (sim_script [float_zero])) (sim_task "train" 1)
                (sim_prepared (VStr "weights")) (sim_built ∅) in
  let run := train (sim_env (sim_script [float_zero])) (sim_task "train" 1)
               (sim_prepared (VStr "weights")) (sim_built ∅) in
  mAPs_read loop.2 = [float_zero] ∧
  run.1.1 = Raise (FileNotFoundError sim_path) ∧
  results_printed run.2 = [].
Proof.
  intros loop run.
  assert (Hloop : loop = (Ok {| highest_mAP := float_zero; mAP := Some float_zero |},
                          loop.1.2, loop.2)) by (vm_compute; reflexivity).
  assert (Hm : mAPs_read loop.2 = [float_zero]) by (vm_compute; reflexivity).
  assert (Hfile : readable (w_files (sim_built ∅)
                              !! weight_path (sim_task "train" 1) "weights") = false)
    by (vm_compute; reflexivity).
  destruct (final_load_unguarded (sim_env (sim_script [float_zero]))
              (sim_task "train" 1) (sim_prepared (VStr "weights")) "weights"
              (sim_built ∅) _ _ _ eq_refl Hfile Hloop)
    as (_ & e & He & Hrun & Hres).
  { left. rewrite Hm. by repeat constructor. }
  split; [exact Hm|]. split; [|exact Hres].
  vm_compute. reflexivity.
Defined.

(** C10 as stated fails when a readable weight file of an earlier run is at
    the path: no validation mAP exceeds 0 and nothing is saved, yet the
    reload succeeds and [train] reports a test result. *)
Lemma final_load_counterexample :
  let run := train (sim_env (sim_script [float_zero])) (sim_task "train" 1)
               (sim_prepared (VStr "weights"))
               (sim_built {[sim_path := Weights {["w" := 7%Z]}]}) in
  run.1.1 = Ok tt ∧
  mAPs_read run.2 = [float_zero] ∧
  float_gt float_zero float_zero = false ∧
  saved run.2 = [] ∧
  results_printed run.2 = [("test_mAP", float_zero)].
Proof. vm_compute. repeat split. Qed.

(** ** What the methods do to the files *)

Section Steady.

Context {H : Type} (E : Env H).
Implicit Types w : world H.
Context (R : gmap string file → gmap string file → Prop).
Context (R_refl : ∀ f, R f f) (R_trans : ∀ f g h, R f g → R g h → R f h).

Lemma steady_ret {A} (a : A) : steady (H:=H) R (ret a).
Proof. intros w. apply R_refl. Qed.

Lemma steady_raise {A} e : steady (H:=H) (A:=A) R (raise e).
Proof. intros w. apply R_refl. Qed.

Lemma steady_bind {A B} (m : M H A) (k : A → M H B) :
  steady R m → (∀ a, steady R (k a)) → steady R (bind m k).
Proof.
  intros Hm Hk w. unfold bind. specialize (Hm w).
  destruct (m w) as [[[a|e] w1] t1]; [|exact Hm].
  specialize (Hk a w1). destruct (k a w1) as [[r w2] t2].
  cbn in *. eauto.
Qed.

Lemma steady_bind_ret {A B} (x : A) (k : A → M H B) :
  steady R (k x) → steady R (bind (ret x) k).
Proof.
  intros Hk w. unfold bind, ret. specialize (Hk w).
  destruct (k x w) as [[r w2] t2]. exact Hk.
Qed.

Lemma steady_try_except {A} (body handler : M H A) :
  steady R body → steady R handler → steady R (try_except body handler).
Proof.
  intros Hb Hh w. unfold try_except. specialize (Hb w).
  destruct (body w) as [[[a|e] w1] t1]; [exact Hb|].
  specialize (Hh w1). destruct (handler w1) as [[r w2] t2].
  cbn in *. eauto.
Qed.

Lemma steady_print l : steady (H:=H) R (print l).
Proof. intros w. apply R_refl. Qed.

Lemma steady_extcall {A} (c : result A → call) (f : ext (H:=H) A) :
  steady R (extcall c f).
Proof.
  intros w. unfold extcall. destruct (f (w_ext w)) as [r h]. apply R_refl.
Qed.

Lemma steady_subscript (d : dict) k : steady (H:=H) R (subscript d k).
Proof. intros w. unfold subscript. destruct (d !! k); apply R_refl. Qed.

Lemma steady_attr a o : steady (H:=H) R (attr a o).
Proof. intros w. destruct o; apply R_refl. Qed.

Lemma steady_op_join d s : steady (H:=H) R (op_join d s).
Proof. intros w. destruct d; apply R_refl. Qed.

Lemma steady_range n : steady (H:=H) R (range n).
Proof. intros w. destruct n; apply R_refl. Qed.

Lemma steady_update v ds bs c : steady (H:=H) R (update v ds bs c).
Proof. intros w. destruct v; apply R_refl. Qed.

Lemma steady_read_mAP vars : steady (H:=H) R (read_mAP vars).
Proof. intros w. unfold read_mAP. destruct (mAP vars); apply R_refl. Qed.

Lemma steady_check_mode self : steady (H:=H) R (check_mode self).
Proof. intros w. unfold check_mode. case_bool_decide; apply R_refl. Qed.

Lemma steady_torch_load path dev : steady (H:=H) R (torch_load path dev).
Proof.
  intros w. unfold torch_load. destruct (w_files w !! path) as [[sd|]|]; apply R_refl.
Qed.

Lemma steady_for_each {A S} (l : list A) (body : S → A → M H S) s :
  (∀ s x, steady R (body s x)) → steady R (for_each l body s).
Proof.
  intros Hb. revert s. induction l as [|x l IH]; intros s; cbn.
  - apply steady_ret.
  - apply steady_bind; [apply Hb|]. intros s'. apply IH.
Qed.

End Steady.

(** Proves [steady R] of a method from what each of its statements does to
    the files, for a reflexive and transitive [R]. *)
Ltac steady_step Hrefl Htrans :=
  first
    [ apply (steady_ret _ Hrefl) | apply (steady_raise _ Hrefl)
    | apply (steady_subscript _ Hrefl) | apply (steady_attr _ Hrefl)
    | apply (steady_op_join _ Hrefl) | apply (steady_range _ Hrefl)
    | apply (steady_update _ Hrefl) | apply (steady_read_mAP _ Hrefl)
    | apply (steady_check_mode _ Hrefl) | apply (steady_print _ Hrefl)
    | apply (steady_extcall _ Hrefl) | apply (steady_torch_load _ Hrefl)
    | apply (steady_try_except _ Htrans)
    | apply (steady_for_each _ Hrefl Htrans); intros
    | apply steady_bind_ret
    | apply (steady_bind _ Htrans); [|intros]
    | match goal with |- steady _ (if ?b then _ else _) => destruct b end ].

Lemma always_check_mode {H : Type} (P : call → Prop) self :
  always (H:=H) P (check_mode self).
Proof. intros w. unfold check_mode. case_bool_decide; constructor. Qed.

Lemma always_update {H : Type} (P : call → Prop) v ds bs c :
  always (H:=H) P (update v ds bs c).
Proof. intros w. destruct v; constructor. Qed.

Lemma always_nil_omap {B} (P : call → Prop) (f : call → option B) t :
  (∀ c, P c → f c = None) → Forall P t → omap f t = [].
Proof.
  intros Hf. induction 1 as [|c t Hc _ IH]; [reflexivity|].
  cbn. by rewrite (Hf c Hc), IH.
Qed.

(** X1.  [prepare] neither reads nor writes a weight file, however it ends:
    the files are as they were, and its calls are prints, builders, the
    collate look-up and loader constructions only. *)
Theorem prepare_touches_no_file {H : Type} (E : Env H) (self : task) (w : world H) :
  w_files (prepare E self w).1.2 = w_files w ∧
  Forall prepare_call (prepare E self w).2 ∧
  weight_paths (prepare E self w).2 = [].
Proof.
  assert (Hcalls : always prepare_call (prepare E self)).
  { unfold prepare, build, make_pipeline, make_dataset, make_loader, get_collate.
    repeat first [ apply always_check_mode | apply always_update | always_step ];
      exact I. }
  split; [|split; [apply Hcalls|]].
  - symmetry.
    assert (Hfiles : steady eq (prepare E self)); [|apply Hfiles].
    unfold prepare, build, make_pipeline, make_dataset, make_loader, get_collate.
    assert (Hrefl : ∀ f : gmap string file, f = f) by done.
    assert (Htrans : ∀ f g h : gmap string file, f = g → g = h → f = h)
      by congruence.
    repeat steady_step Hrefl Htrans.
  - apply (always_nil_omap prepare_call); [|apply Hcalls]. by intros [].
Qed.

(** X2.  [eval] reads the weight file and never writes one: however it
    ends, the files are as they were, and its calls are prints, the load of
    the weight file, the load of the state into the model and the
    evaluation; it makes no train step and saves nothing. *)
Theorem eval_writes_no_file {H : Type} (E : Env H) (self : task) (p : prepared)
    (w : world H) :
  w_files (eval E self p w).1.2 = w_files w ∧
  Forall eval_call (eval E self p w).2 ∧
  save_calls (eval E self p w).2 = [] ∧
  train_steps (eval E self p w).2 = [].
Proof.
  assert (Hcalls : always eval_call (eval E self p)).
  { unfold eval, load_pretrained. repeat always_step; exact I. }
  split; [|split; [apply Hcalls|split]].
  - symmetry.
    assert (Hfiles : steady eq (eval E self p)); [|apply Hfiles].
    assert (Hrefl : ∀ f : gmap string file, f = f) by done.
    assert (Htrans : ∀ f g h : gmap string file, f = g → g = h → f = h)
      by congruence.
    unfold eval, load_pretrained. repeat steady_step Hrefl Htrans.
  - apply (always_nil_omap eval_call); [|apply Hcalls]. by intros [].
  - apply (always_nil_omap eval_call); [|apply Hcalls]. by intros [].
Qed.

Section Writes.

Context {H : Type} (E : Env H).








End Writes.




Section Keywords.

Context {H : Type} (E : Env H).

Lemma always_bind_attr (P : call → Prop) {B} a o (k : obj → M H B) :
  (∀ x, o = Some x → always P (k x)) → always P (bind (attr a o) k).
Proof.
  intros Hk w. unfold bind, attr. destruct o as [x|]; cbn; [|constructor].
  specialize (Hk x eq_refl w). by destruct (k x w) as [[r w2] t2].
Qed.

End Keywords.

(** X13.  Every call of the evaluation object that [train] makes, in the
    loop and after it, is on the task's evaluation object and by keyword:
    [model=] is the task's model and [dataloader=] its validation loader or
    its test loader. *)
Theorem train_evaluates_by_keyword {H : Type} (E : Env H) (self : task)
    (p : prepared) (w : world H) :
  Forall (keyword_evaluation p) (train E self p w).2.
Proof.
  assert (Hcalls : always (keyword_evaluation p) (train E self p)); [|apply Hcalls].
  unfold train, train_loop, test_highest, epoch_body, train_and_validate,
    step_and_save, save_highest, save_attempt.
  repeat first [ apply always_bind_attr; intros | always_step ];
    try exact I; (split; [reflexivity|]); eexists; split; eauto.
Qed.

(** Runs a method whose collaborators' answers are not known, one call at a
    time, down to its possible outcomes. *)
Ltac run_cases :=
  repeat match goal with
  | |- context [match ?x with (_, _) => _ end] =>
      lazymatch x with
      | context [match _ with _ => _ end] => fail
      | _ => destruct x as [[?|?] ?]; cbn
      end
  end.



(** X5.  When the task settings have no "d_weight", [prepare] never
    succeeds and builds no pipeline, dataset or loader; once the model and
    the evaluation object are built it raises [KeyError] for that key,
    before the train step is looked up. *)
Theorem prepare_missing_d_weight {H : Type} (E : Env H) (self : task) (w : world H) :
  get_settings (task_settings self) !! "d_weight" = None →
  (∃ e, (prepare E self w).1.1 = Raise e) ∧
  pipelines_built (prepare E self w).2 = [] ∧
  datasets_built (prepare E self w).2 = [] ∧
  loaders_built (prepare E self w).2 = [] ∧
  (∀ m h1 ev h2,
     mode self = "train" ∨ mode self = "test" →
     build_model E (name (model_setting self)) (get_settings (model_setting self))
       (device self) (w_ext w) = (Ok m, h1) →
     build_evaluation E (name (eval_settings self)) (get_settings (eval_settings self))
       h1 = (Ok ev, h2) →
     prepare E self w =
       (Raise (KeyError "d_weight"), {| w_ext := h2; w_files := w_files w |},
        [C_build_model (name (model_setting self)) (get_settings (model_setting self))
           (device self);
         C_build_evaluation (name (eval_settings self))
           (get_settings (eval_settings self))])).
Proof.
  intros Hkey.
  unfold prepare, build, check_mode, bind, extcall, subscript, raise, ret.
  rewrite Hkey. split; [|split; [|split; [|split]]].
  1-4: case_bool_decide; cbn; run_cases; eauto.
  intros m h1 ev h2 Hmode Hm He.
  rewrite bool_decide_eq_true_2 by (by apply mode_valid). cbn.
  rewrite Hm. cbn. rewrite He. reflexivity.
Qed.

Lemma prepare_missing_d_weight_witness :
  let self := {| mode := "test"; device := "cpu"; project := default_project;
                 model_setting := sim_settings "resnet" ∅;
                 pipeline_setting := sim_settings "basic" ∅;
                 dataset_setting := sim_settings "attributes" ∅;
                 eval_settings := sim_settings "mAP" ∅;
                 train_settings := sim_settings "epoch" ∅;
                 task_settings := sim_settings "task" ∅ |} in
  (prepare (sim_env (sim_script [])) self (sim_world ∅)).1.1
    = Raise (KeyError "d_weight").
Proof.
  intros self.
  destruct (prepare_missing_d_weight (sim_env (sim_script [])) self (sim_world ∅))
    as (_ & _ & _ & _ & Hraise); [vm_compute; reflexivity|].
  by rewrite (Hraise _ _ _ _ (or_intror eq_refl) eq_refl eq_refl).
Defined.

(** X6.  When the batch size is missing from the settings it is read from,
    [prepare] never succeeds and builds no loader.  In mode "test" the
    evaluation settings are read before any pipeline or dataset is built,
    so none is: once the model, the evaluation object and the train step
    are built, [prepare] raises [KeyError] for the key and has made these
    three calls only.  In mode "train" the train settings are read after
    the pipelines and the datasets: once these are built too, [prepare]
    raises [KeyError] for the key, having built the two pipelines and the
    three datasets and looked the collation function up on the train set. *)
Theorem prepare_missing_batch_size {H : Type} (E : Env H) (self : task)
    (w : world H) :
  (mode self = "test" →
   get_settings (eval_settings self) !! "batch_size" = None →
   (∃ e, (prepare E self w).1.1 = Raise e) ∧
   pipelines_built (prepare E self w).2 = [] ∧
   datasets_built (prepare E self w).2 = [] ∧
   loaders_built (prepare E self w).2 = [] ∧
   (∀ m h1 ev h2 d tu h3,
      build_model E (name (model_setting self)) (get_settings (model_setting self))
        (device self) (w_ext w) = (Ok m, h1) →
      build_evaluation E (name (eval_settings self)) (get_settings (eval_settings self))
        h1 = (Ok ev, h2) →
      get_settings (task_settings self) !! "d_weight" = Some d →
      build_train_util E (name (train_settings self)) h2 = (Ok tu, h3) →
      prepare E self w =
        (Raise (KeyError "batch_size"), {| w_ext := h3; w_files := w_files w |},
         [C_build_model (name (model_setting self)) (get_settings (model_setting self))
            (device self);
          C_build_evaluation (name (eval_settings self))
            (get_settings (eval_settings self));
          C_build_train_util (name (train_settings self))]))) ∧
  (mode self = "train" →
   get_settings (train_settings self) !! "batch_size" = None →
   (∃ e, (prepare E self w).1.1 = Raise e) ∧
   loaders_built (prepare E self w).2 = [] ∧
   (∀ m h1 ev h2 d tu h3 train_tf h4 evalu_tf h5 train_ds h6 val_ds h7 test_ds h8,
      build_model E (name (model_setting self)) (get_settings (model_setting self))
        (device self) (w_ext w) = (Ok m, h1) →
      build_evaluation E (name (eval_settings self)) (get_settings (eval_settings self))
        h1 = (Ok ev, h2) →
      get_settings (task_settings self) !! "d_weight" = Some d →
      build_train_util E (name (train_settings self)) h2 = (Ok tu, h3) →
      build_pipeline E (name (pipeline_setting self)) "train"
        (get_settings (pipeline_setting self)) h3 = (Ok train_tf, h4) →
      build_pipeline E (name (pipeline_setting self)) "evalu"
        (get_settings (pipeline_setting self)) h4 = (Ok evalu_tf, h5) →
      build_dataset E (name (dataset_setting self)) "train" train_tf
        (get_settings (dataset_setting self)) h5 = (Ok train_ds, h6) →
      build_dataset E (name (dataset_setting self)) "val" evalu_tf
        (get_settings (dataset_setting self)) h6 = (Ok val_ds, h7) →
      build_dataset E (name (dataset_setting self)) "test" evalu_tf
        (get_settings (dataset_setting self)) h7 = (Ok test_ds, h8) →
      (prepare E self w).1.1 = Raise (KeyError "batch_size") ∧
      w_ext (prepare E self w).1.2 = (collate_fn E train_ds h8).2 ∧
      pipelines_built (prepare E self w).2 = ["train"; "evalu"] ∧
      datasets_built (prepare E self w).2
        = [("train", train_tf); ("val", evalu_tf); ("test", evalu_tf)] ∧
      collate_lookups (prepare E self w).2
        = [(train_ds, (collate_fn E train_ds h8).1)])).
Proof.
  split; intros Hm Hkey;
    unfold prepare, check_mode;
    rewrite bool_decide_eq_true_2 by (apply mode_valid; rewrite Hm; auto);
    unfold build, make_pipeline, make_dataset, get_collate, try_except, bind,
      extcall, subscript, print, raise, ret;
    rewrite Hm, Hkey; cbn.
  - split; [|split; [|split; [|split]]].
    1-4: destruct (get_settings (task_settings self) !! "d_weight");
         cbn; run_cases; eauto.
    intros m h1 ev h2 d tu h3 Hmodel Hev Hd Htu.
    rewrite Hmodel. cbn. rewrite Hev, Hd. cbn. rewrite Htu. reflexivity.
  - split; [|split].
    1-2: destruct (get_settings (task_settings self) !! "d_weight");
         cbn; run_cases; eauto.
    intros m h1 ev h2 d tu h3 train_tf h4 evalu_tf h5 train_ds h6 val_ds h7 test_ds h8
      Hmodel Hev Hd Htu Htt Het Htrs Hvs Htes.
    rewrite Hmodel. cbn. rewrite Hev, Hd. cbn. rewrite Htu. cbn.
    rewrite Htt. cbn. rewrite Het. cbn. rewrite Htrs. cbn. rewrite Hvs. cbn.
    rewrite Htes. cbn.
    by destruct (collate_fn E train_ds h8) as [[c|e] h9].
Qed.

Lemma prepare_missing_batch_size_witness :
  let incomplete md :=
    {| mode := md; device := "cpu"; project := default_project;
       model_setting := sim_settings "resnet" ∅;
       pipeline_setting := sim_settings "basic" ∅;
       dataset_setting := sim_settings "attributes" ∅;
       eval_settings := sim_settings "mAP" ∅;
       train_settings := sim_settings "epoch" ∅;
       task_settings := sim_settings "task" {["d_weight" := VStr "weights"]} |} in
  let run := prepare (sim_env (sim_script [])) (incomplete "train") (sim_world ∅) in
  (run.1.1 = Raise (KeyError "batch_size") ∧
   loaders_built run.2 = [] ∧
   pipelines_built run.2 = ["train"; "evalu"] ∧
   datasets_built run.2 = [("train", pipeline_train); ("val", pipeline_evalu);
                           ("test", pipeline_evalu)] ∧
   collate_lookups run.2
     = [(dataset_train, Raise (AttributeError "collate_fn"))]) ∧
  prepare (sim_env (sim_script [])) (incomplete "test") (sim_world ∅)
    = (Raise (KeyError "batch_size"), sim_built ∅,
       [C_build_model "resnet" ∅ "cpu"; C_build_evaluation "mAP" ∅;
        C_build_train_util "epoch"]).
Proof.
  intros incomplete run. split.
  - destruct (prepare_missing_batch_size (sim_env (sim_script [])) (incomplete "train")
                (sim_world ∅)) as [_ Htrain].
    destruct Htrain as (_ & Hnone & Horder);
      [reflexivity|vm_compute; reflexivity|].
    destruct (Horder the_model (w_ext (sim_built ∅)) the_evaluation
                (w_ext (sim_built ∅)) (VStr "weights") the_train_util
                (w_ext (sim_built ∅)) pipeline_train (w_ext (sim_built ∅))
                pipeline_evalu (w_ext (sim_built ∅)) dataset_train
                (w_ext (sim_built ∅)) dataset_val (w_ext (sim_built ∅))
                dataset_test (w_ext (sim_built ∅)))
      as (Hraise & _ & Hp & Hd & Hc); [vm_compute; reflexivity ..|].
    split; [exact Hraise|]. split; [exact Hnone|]. split; [exact Hp|].
    split; [exact Hd|exact Hc].
  - destruct (prepare_missing_batch_size (sim_env (sim_script [])) (incomplete "test")
                (sim_world ∅)) as [Htest _].
    destruct Htest as (_ & _ & _ & _ & Hraise);
      [reflexivity|vm_compute; reflexivity|].
    apply (Hraise the_model (w_ext (sim_built ∅)) the_evaluation
             (w_ext (sim_built ∅)) (VStr "weights") the_train_util);
      vm_compute; reflexivity.
Defined.

(** ** More on the loop *)

Section LoopLog.

Context {H : Type} (E : Env H).
Implicit Types w : world H.
Context (self : task) (p : prepared).




Lemma epochs_run_best optimizer scheduler l vars w obs vars' w' :
  epochs_run E self p optimizer scheduler l vars w obs vars' w' →
  ∀ ms0, best_of ms0 (highest_mAP vars) →
         best_of (ms0 ++ map fst obs) (highest_mAP vars').
Proof.
  induction 1 as [|epoch l vars w m w1 t1 vars1 w2 t2 obs vars' w' Htv Hs _ IH];
    intros ms0 Hbest.
  - by rewrite app_nil_r.
  - destruct (epoch_summary E self p _ _ _ _ _ _ _ _ _ _ _ Htv Hs) as (_ & _ & Hh & _).
    cbn [map fst]. rewrite (cons_middle m), app_assoc. apply IH.
    rewrite Hh. by apply best_of_snoc.
Qed.



End LoopLog.



(** X9.  After a loop that completes, [highest_mAP] is the running maximum
    of the validation mAPs from 0: it is a number (never NaN) and not
    negative, it is 0 or one of the validation mAPs, and no validation mAP
    exceeds it; [mAP] is the last validation mAP, unbound when no epoch
    ran. *)
Theorem highest_is_running_max {H : Type} (E : Env H) (self : task) (p : prepared)
    (w : world H) vars w' t :
  train_loop E self p w = (Ok vars, w', t) →
  is_nan (highest_mAP vars) = false ∧
  float_gt float_zero (highest_mAP vars) = false ∧
  (highest_mAP vars = float_zero ∨ highest_mAP vars ∈ mAPs_read t) ∧
  (∀ m, m ∈ mAPs_read t → float_gt m (highest_mAP vars) = false) ∧
  mAP vars = last (mAPs_read t).
Proof.
  intros (optimizer & scheduler & epochs & w0 & obs & _ & Hrun & ->)%train_loop_Ok.
  assert (Hm : mAPs_read ([C_get_optimizer (model p); C_ReduceLROnPlateau optimizer]
                            ++ concat (map snd obs)) = map fst obs).
  { unfold mAPs_read. rewrite omap_app.
    apply (epochs_run_mAPs_read E self p _ _ _ _ _ _ _ _ Hrun). }
  rewrite Hm.
  destruct (epochs_run_best E self p _ _ _ _ _ _ _ _ Hrun [] best_of_nil)
    as (Hnan & Hz & Hin & Hmax).
  repeat split; try done.
  rewrite (epochs_run_mAP E self p _ _ _ _ _ _ _ _ Hrun).
  by destruct (last (map fst obs)).
Qed.

Lemma highest_is_running_max_witness :
  let loop := train_loop (sim_env (sim_script [f0_5; S754_nan; f0_7; f0_6]))
                (sim_task "train" 4) (sim_prepared (VStr "weights")) (sim_built ∅) in
  ∃ vars, loop.1.1 = Ok vars ∧
          highest_mAP vars = f0_7 ∧
          mAPs_read loop.2 = [f0_5; S754_nan; f0_7; f0_6] ∧
          ∀ m, m ∈ mAPs_read loop.2 → float_gt m (highest_mAP vars) = false.
Proof.
  intros loop.
  assert (Hloop : loop = (Ok {| highest_mAP := f0_7; mAP := Some f0_6 |},
                          loop.1.2, loop.2)) by (vm_compute; reflexivity).
  destruct (highest_is_running_max _ _ _ _ _ _ _ Hloop) as (_ & _ & _ & Hmax & _).
  eexists. rewrite Hloop. split; [reflexivity|]. split; [reflexivity|].
  split; [vm_compute; reflexivity|exact Hmax].
Defined.



Section Failures.

Context {H : Type} (E : Env H).
Implicit Types w : world H.
Context (self : task) (p : prepared).

Lemma train_and_validate_no_save optimizer epoch :
  always (fun c => match c with C_torch_save _ _ _ => False | _ => True end)
    (train_and_validate E self p optimizer epoch).
Proof. unfold train_and_validate. repeat always_step; exact I. Qed.

Lemma train_and_validate_files optimizer epoch :
  steady eq (train_and_validate E self p optimizer epoch).
Proof.
  assert (Hrefl : ∀ f : gmap string file, f = f) by done.
  assert (Htrans : ∀ f g h : gmap string file, f = g → g = h → f = h) by congruence.
  unfold train_and_validate. repeat steady_step Hrefl Htrans.
Qed.

(** An iteration raises only from its first three statements or from
    [scheduler.step]: the save never lets an exception out. *)
Lemma epoch_body_Raise optimizer scheduler vars epoch w e w2 t2 :
  epoch_body E self p optimizer scheduler vars epoch w = (Raise e, w2, t2) →
  train_and_validate E self p optimizer epoch w = (Raise e, w2, t2)
  ∨ ∃ m w1 t1 h,
      train_and_validate E self p optimizer epoch w = (Ok m, w1, t1) ∧
      scheduler_step E scheduler m (w_ext w1) = (Raise e, h) ∧
      w2 = {| w_ext := h; w_files := w_files w1 |} ∧
      t2 = t1 ++ [C_scheduler_step scheduler m].
Proof.
  unfold epoch_body, bind at 1.
  destruct (train_and_validate E self p optimizer epoch w) as [[[m|e'] w1] t1];
    [|intros [= <- <- <-]; by left].
  unfold step_and_save, bind at 1, extcall.
  destruct (scheduler_step E scheduler m (w_ext w1)) as [[[]|e'] h] eqn:Hstep.
  - destruct (float_gt m (highest_mAP vars)); [|discriminate].
    destruct (save_highest_run E self p {| w_ext := h; w_files := w_files w1 |})
      as (r & h' & _ & Hrun).
    unfold bind.
    destruct r as [sd|e'], (d_weight p) as [|b|z|f|a|o|d];
      cbn [w_ext w_files] in Hrun;
      try (rewrite Hrun; discriminate).
    destruct (save_fault E sd (weight_path self a) h') as [[e' b]|];
      rewrite Hrun; discriminate.
  - intros [= <- <- <-]. right. exists m, w1, t1, h. repeat split. exact Hstep.
Qed.

Lemma for_each_Raise optimizer scheduler l1 epoch l2 vars w obs vars1 w1 e w2 t2 :
  epochs_run E self p optimizer scheduler l1 vars w obs vars1 w1 →
  epoch_body E self p optimizer scheduler vars1 epoch w1 = (Raise e, w2, t2) →
  for_each (l1 ++ epoch :: l2) (epoch_body E self p optimizer scheduler) vars w
    = (Raise e, w2, concat (map snd obs) ++ t2).
Proof.
  intros Hrun Hbody.
  induction Hrun as [|ep l vars w m w3 t1 vars3 w4 t3 obs vars' w' Htv Hs _ IH].
  - cbn. by rewrite (bind_raise _ _ _ _ _ _ Hbody).
  - assert (Hthis : epoch_body E self p optimizer scheduler vars ep w
                    = (Ok vars3, w4, t1 ++ t3)).
    { unfold epoch_body. by rewrite (bind_run _ _ _ _ _ _ Htv), Hs. }
    cbn [app for_each]. rewrite (bind_run _ _ _ _ _ _ Hthis), (IH Hbody).
    cbn. by rewrite app_assoc.
Qed.

End Failures.

(** X11.  An exception in an iteration, from the train step, a settings
    look-up, the evaluation, [get_mAP] or [scheduler.step] (never from the
    save), is not caught: after the epochs that completed, the loop ends
    with that exception, no later epoch runs, and the failing iteration
    has saved nothing and left the files as they were. *)
Theorem iteration_failure_propagates {H : Type} (E : Env H) (self : task)
    (p : prepared) (optimizer scheduler : obj) (l1 : list Z) (epoch : Z)
    (l2 : list Z) (vars : locals) (w : world H) obs vars1 w1 e w2 t2 :
  epochs_run E self p optimizer scheduler l1 vars w obs vars1 w1 →
  epoch_body E self p optimizer scheduler vars1 epoch w1 = (Raise e, w2, t2) →
  for_each (l1 ++ epoch :: l2) (epoch_body E self p optimizer scheduler) vars w
    = (Raise e, w2, concat (map snd obs) ++ t2) ∧
  saved t2 = [] ∧
  w_files w2 = w_files w1 ∧
  (train_and_validate E self p optimizer epoch w1 = (Raise e, w2, t2)
   ∨ ∃ m w3 t1 h,
       train_and_validate E self p optimizer epoch w1 = (Ok m, w3, t1) ∧
       scheduler_step E scheduler m (w_ext w3) = (Raise e, h) ∧
       t2 = t1 ++ [C_scheduler_step scheduler m]).
Proof.
  intros Hrun Hbody. split; [eapply for_each_Raise; eassumption|].
  pose proof (train_and_validate_no_save E self p optimizer epoch w1) as Hns.
  pose proof (train_and_validate_files E self p optimizer epoch w1) as Hf.
  destruct (epoch_body_Raise E self p _ _ _ _ _ _ _ _ Hbody)
    as [Htv|(m & w3 & t1 & h & Htv & Hstep & -> & ->)];
    rewrite Htv in Hns, Hf; cbn [fst snd] in Hns, Hf.
  - split; [|split; [by symmetry|by left]].
    eapply always_nil_omap; [|exact Hns]. by intros [].
  - split; [|split; [by symmetry|right; by exists m, w3, t1, h]].
    unfold saved. rewrite omap_app. cbn. rewrite app_nil_r.
    eapply always_nil_omap; [|exact Hns]. by intros [].
Qed.

Lemma iteration_failure_propagates_witness :
  let self := {| mode := "train"; device := "cpu"; project := default_project;
                 model_setting := sim_settings "resnet" ∅;
                 pipeline_setting := sim_settings "basic" ∅;
                 dataset_setting := sim_settings "attributes" ∅;
                 eval_settings := sim_settings "mAP" ∅;
                 train_settings := sim_settings "epoch" {["epochs" := VInt 2]};
                 task_settings := sim_settings "task" ∅ |} in
  for_each [0; 1]%Z
    (epoch_body (sim_env (sim_script [f0_5; f0_7])) self (sim_prepared (VStr "weights"))
       the_optimizer the_scheduler) initial_locals (sim_built ∅)
  = (Raise (KeyError "amp"), sim_built ∅, []).
Proof.
  intros self.
  destruct (iteration_failure_propagates (sim_env (sim_script [f0_5; f0_7])) self
              (sim_prepared (VStr "weights")) the_optimizer the_scheduler
              [] 0%Z [1%Z] initial_locals (sim_built ∅) [] initial_locals (sim_built ∅)
              (KeyError "amp") (sim_built ∅) [])
    as (Hloop & _); [constructor|reflexivity|exact Hloop].
Defined.

(** X7.  With [epochs] at most 0 the loop body never runs and [train] never
    completes: it makes no train step, saves and prints no result, leaves
    the files as they were, and ends with an exception; when everything up
    to the test pass succeeds, that exception is the unbound local [mAP]. *)
Theorem train_without_epochs {H : Type} (E : Env H) (self : task) (p : prepared)
    (w : world H) (z : Z) :
  get_settings (train_settings self) !! "epochs" = Some (VInt z) →
  (z ≤ 0)%Z →
  (∃ e, (train E self p w).1.1 = Raise e) ∧
  train_steps (train E self p w).2 = [] ∧
  save_calls (train E self p w).2 = [] ∧
  results_printed (train E self p w).2 = [] ∧
  w_files (train E self p w).1.2 = w_files w ∧
  (∀ o h1 s h2 a sd ks h3 h4,
     get_optimizer E (model p) (w_ext w) = (Ok o, h1) →
     ReduceLROnPlateau E o h1 = (Ok s, h2) →
     d_weight p = VStr a →
     w_files w !! weight_path self a = Some (Weights sd) →
     load_state_dict E (model p) sd true h2 = (Ok ks, h3) →
     call_evaluation E (evaluation p) (model p, testloader p) h3 = (Ok tt, h4) →
     (train E self p w).1.1 = Raise (UnboundLocalError "mAP")).
Proof.
  intros Hn Hz.
  assert (Hnat : Z.to_nat z = 0) by lia.
  unfold train, train_loop, test_highest, bind, extcall, subscript, range, op_join,
    torch_load, read_mAP, print, raise, ret, weight_path.
  rewrite Hn, Hnat. cbn [seq map for_each].
  split; [|split; [|split; [|split; [|split]]]].
  1-5: destruct (get_optimizer E (model p) (w_ext w)) as [[o|e] h1]; cbn; eauto;
       destruct (ReduceLROnPlateau E o h1) as [[s|e] h2]; cbn; eauto;
       destruct (d_weight p); cbn; eauto;
       destruct (w_files w !! _) as [[sd|]|]; cbn; eauto;
       destruct (load_state_dict E (model p) sd true h2) as [[ks|e] h3]; cbn; eauto;
       destruct (call_evaluation E (evaluation p) _ h3) as [[[]|e] h4]; cbn; eauto.
  intros o h1 s h2 a sd ks h3 h4 Ho Hs Ha Hf Hl He.
  rewrite Ho. cbn. rewrite Hs. cbn. rewrite Ha. unfold weight_path in Hf. cbn.
  rewrite Hf. cbn. rewrite Hl. cbn. rewrite He. reflexivity.
Qed.

Lemma train_without_epochs_witness :
  let run := train (sim_env (sim_script [])) (sim_task "train" 0)
               (sim_prepared (VStr "weights"))
               (sim_built {[sim_path := Weights {["w" := 7%Z]}]}) in
  run.1.1 = Raise (UnboundLocalError "mAP") ∧ train_steps run.2 = [].
Proof.
  intros run.
  destruct (train_without_epochs (sim_env (sim_script [])) (sim_task "train" 0)
              (sim_prepared (VStr "weights"))
              (sim_built {[sim_path := Weights {["w" := 7%Z]}]}) 0 eq_refl)
    as (_ & Hsteps & _ & _ & _ & Hraise); [lia|].
  split; [|exact Hsteps].
  eapply (Hraise _ _ _ _ "weights"); try reflexivity; vm_compute; reflexivity.
Defined.

Lemma append_assoc (a b c : string) : (a +:+ b) +:+ c = a +:+ b +:+ c.
Proof.
  induction a as [|ch a IH]; [reflexivity|].
  change (String ch ((a +:+ b) +:+ c) = String ch (a +:+ b +:+ c)).
  by rewrite IH.
Qed.

Lemma prefix_slash_true (s x : string) :
  String.prefix "/" s = true → String.prefix "/" (s +:+ x) = true.
Proof.
  destruct s as [|c s]; [discriminate|].
  change (String c s +:+ x) with (String c (s +:+ x)).
  cbn -[Ascii.ascii_dec String.append].
  match goal with
  | |- context [Ascii.ascii_dec ?a ?b] => destruct (Ascii.ascii_dec a b)
  end; [|discriminate].
  intros _. by destruct (s +:+ x).
Qed.

(** X12.  Whatever the weight directory, the weight path ends with
    [project + "-model-highest.pth"].  When the project name starts with a
    slash the directory is dropped and the path is that name alone;
    otherwise the path starts with the directory. *)
Theorem weight_path_shape (self : task) (a : string) :
  (∃ pre, weight_path self a = pre +:+ project self +:+ "-model-highest.pth") ∧
  (String.prefix "/" (project self) = true →
   weight_path self a = project self +:+ "-model-highest.pth") ∧
  (String.prefix "/" (project self) = false →
   ∃ rest, weight_path self a = a +:+ rest).
Proof.
  unfold weight_path, join. split; [|split].
  - destruct (String.prefix "/" _); [by exists ""|].
    destruct (_ || _)%bool; [by exists a|].
    exists (a +:+ "/"). by rewrite append_assoc.
  - intros Hp. by rewrite (prefix_slash_true _ _ Hp).
  - intros Hp. rewrite (prefix_slash _ Hp).
    destruct (_ || _)%bool; eauto.
Qed.

Lemma weight_path_shape_witness :
  let self := {| mode := "train"; device := "cpu"; project := "/srv/run";
                 model_setting := sim_settings "resnet" ∅;
                 pipeline_setting := sim_settings "basic" ∅;
                 dataset_setting := sim_settings "attributes" ∅;
                 eval_settings := sim_settings "mAP" ∅;
                 train_settings := sim_settings "epoch" ∅;
                 task_settings := sim_settings "task" ∅ |} in
  weight_path self "weights" = "/srv/run-model-highest.pth" ∧
  ∃ rest, weight_path (sim_task "train" 3) "weights/" = "weights/" +:+ rest.
Proof.
  intros self. split.
  - destruct (weight_path_shape self "weights") as (_ & Habs & _).
    exact (Habs eq_refl).
  - destruct (weight_path_shape (sim_task "train" 3) "weights/") as (_ & _ & Hrel).
    exact (Hrel eq_refl).
Defined.

(** X14.  [run] trains in mode "train" and only there: in every other mode
    it is [eval], so it makes no train step, saves nothing and leaves the
    files as they were. *)
Theorem run_trains_only_in_train_mode {H : Type} (E : Env H) (self : task)
    (p : prepared) (w : world H) :
  (mode self = "train" → run E self p w = train E self p w) ∧
  (mode self ≠ "train" →
   run E self p w = eval E self p w ∧
   train_steps (run E self p w).2 = [] ∧
   save_calls (run E self p w).2 = [] ∧
   w_files (run E self p w).1.2 = w_files w).
Proof.
  unfold run. destruct (String.eqb_spec (mode self) "train") as [Hm|Hm].
  - split; [done|]. intros Hne. by destruct Hne.
  - split; [intros Heq; by destruct Hm|]. intros _.
    destruct (eval_writes_no_file E self p w) as (Hf & _ & Hs & Ht). auto.
Qed.

Lemma run_trains_only_in_train_mode_witness :
  let run_test := run (sim_env (sim_script [])) (sim_task "test" 3)
                    (sim_prepared_test (VStr "weights"))
                    (sim_built {[sim_path := Weights {["w" := 7%Z]}]}) in
  train_steps run_test.2 = [] ∧
  w_files run_test.1.2 = {[sim_path := Weights {["w" := 7%Z]}]} ∧
  run (sim_env (sim_script [f0_5])) (sim_task "train" 1)
      (sim_prepared (VStr "weights")) (sim_built ∅)
    = train (sim_env (sim_script [f0_5])) (sim_task "train" 1)
        (sim_prepared (VStr "weights")) (sim_built ∅).
Proof.
  intros run_test.
  destruct (run_trains_only_in_train_mode (sim_env (sim_script [])) (sim_task "test" 3)
              (sim_prepared_test (VStr "weights"))
              (sim_built {[sim_path := Weights {["w" := 7%Z]}]})) as [_ Htest].
  destruct Htest as (_ & Ht & _ & Hf); [discriminate|].
  split; [exact Ht|]. split; [exact Hf|].
  by apply (run_trains_only_in_train_mode (sim_env (sim_script [f0_5]))
              (sim_task "train" 1) (sim_prepared (VStr "weights")) (sim_built ∅)).
Defined.
